(** * Route selection of backend/main.py

    A shallow embedding of [norm], [score_path_for_ride],
    [select_path_for_ride] and the mapObj extraction of [get_map_obj],
    over the values that [resp.json()] hands to them. *)

From Stdlib Require Import ZArith NArith List Bool Lia String Ascii.
Import ListNotations.
Local Open Scope Z_scope.
Local Set Warnings "-register-all".

(** ** Python values *)

(** A Python [str] is a sequence of Unicode code points. *)
Definition str := list N.

(** An ASCII literal of the source, as code points. *)
Definition lit (s : string) : str := map N_of_ascii (list_ascii_of_string s).

(** A float is kept by its value: not-a-number, an infinity, or
    [(-1)^neg * m * 2^e]. *)
Inductive pyfloat :=
| FNan
| FInf (neg : bool)
| FFin (neg : bool) (m : N) (e : Z).

(** What [json.loads] builds.  A dict keeps insertion order and is iterated
    by key, so it is an association list; its keys are distinct, and
    [dict.get] and subscription read the first binding of a key. *)
Inductive value :=
| VNone
| VBool (b : bool)
| VInt (z : Z)
| VFloat (f : pyfloat)
| VStr (s : str)
| VList (items : list value)
| VDict (kvs : list (str * value)).

(** The fixed [detail] texts of the three [HTTPException]s raised between
    [select_path_for_ride] and [get_map_obj]. *)
Inductive detail :=
| PathMissing      (* "ODSAY 응답 포맷이 예상과 다릅니다 (path 누락)." *)
| NoPathFound      (* "ODSAY: 경로를 찾지 못했습니다." *)
| MapObjMissing.   (* "선택한 경로에 mapObj 가 없습니다." *)

Inductive exn :=
| HTTPException (status_code : Z) (d : detail)
| KeyError
| IndexError
| TypeError
| AttributeError
| ValueError
| OverflowError.

(** A call returns, raises, or asks the interpreter for something this
    development does not describe: [repr] of floats and containers, and
    [int] or [str] beyond plain ASCII text or the digit limit. *)
Inductive outcome (A : Type) :=
| Ok (a : A)
| Raise (e : exn)
| Unmodelled.
Arguments Ok {A} a.
Arguments Raise {A} e.
Arguments Unmodelled {A}.

Definition bind {A B} (c : outcome A) (k : A -> outcome B) : outcome B :=
  match c with
  | Ok a => k a
  | Raise e => Raise e
  | Unmodelled => Unmodelled
  end.

Notation "x <- c ;; k" := (bind c (fun x => k))
  (at level 61, c at next level, right associativity).
Notation "' pat <- c ;; k" := (bind c (fun x => match x with pat => k end))
  (at level 61, pat pattern, c at next level, right associativity).

(** ** Built-ins the code relies on *)

Definition nonempty {A} (l : list A) : bool :=
  match l with [] => false | _ :: _ => true end.

Definition float_is_zero (f : pyfloat) : bool :=
  match f with FFin _ m _ => (m =? 0)%N | _ => false end.

(** [bool(v)]: what [not v], [v or w] and [if v] test. *)
Definition truthy (v : value) : bool :=
  match v with
  | VNone => false
  | VBool b => b
  | VInt z => negb (z =? 0)
  | VFloat f => negb (float_is_zero f)
  | VStr s => nonempty s
  | VList items => nonempty items
  | VDict kvs => nonempty kvs
  end.

(** [a or b] *)
Definition py_or (a b : value) : value := if truthy a then a else b.

Definition str_eqb (a b : str) : bool :=
  if list_eq_dec N.eq_dec a b then true else false.

Fixpoint lookup (k : str) (kvs : list (str * value)) : option value :=
  match kvs with
  | [] => None
  | (k', v) :: rest => if str_eqb k k' then Some v else lookup k rest
  end.

(** [d.get(k, default)]: only a dict has the method. *)
Definition dict_get (d : value) (k : str) (default : value) : outcome value :=
  match d with
  | VDict kvs =>
      Ok (match lookup k kvs with Some v => v | None => default end)
  | _ => Raise AttributeError
  end.

(** [d[k]] with a text key: a missing key is a [KeyError], anything that is
    not a dict cannot take a text subscript. *)
Definition subscript (d : value) (k : str) : outcome value :=
  match d with
  | VDict kvs =>
      match lookup k kvs with Some v => Ok v | None => Raise KeyError end
  | _ => Raise TypeError
  end.

(** [v[0]] *)
Definition first_item (v : value) : outcome value :=
  match v with
  | VList (x :: _) => Ok x
  | VList [] => Raise IndexError
  | VStr (c :: _) => Ok (VStr [c])
  | VStr [] => Raise IndexError
  | VDict _ => Raise KeyError
  | _ => Raise TypeError
  end.

(** The items a [for] loop over [v] visits. *)
Definition py_iter (v : value) : outcome (list value) :=
  match v with
  | VList items => Ok items
  | VStr s => Ok (map (fun c => VStr [c]) s)
  | VDict kvs => Ok (map (fun kv => VStr (fst kv)) kvs)
  | _ => Raise TypeError
  end.

Definition float_eq_int (f : pyfloat) (n : Z) : bool :=
  match f with
  | FFin neg m e =>
      let mag := Z.of_N m in
      let sgn := if neg then -1 else 1 in
      if 0 <=? e then sgn * mag * 2 ^ e =? n
      else sgn * mag =? n * 2 ^ (- e)
  | _ => false
  end.

(** [v == n] for an int literal [n]. *)
Definition eq_int (v : value) (n : Z) : bool :=
  match v with
  | VInt z => z =? n
  | VBool b => (if b then 1 else 0) =? n
  | VFloat f => float_eq_int f n
  | _ => false
  end.

(** *** Text *)

(** [str.isspace] of one character, the class [str.strip()] removes. *)
Definition isspace (c : N) : bool :=
  (((9 <=? c) && (c <=? 13)) || ((28 <=? c) && (c <=? 32))
   || (c =? 133) || (c =? 160) || (c =? 5760)
   || ((8192 <=? c) && (c <=? 8202))
   || (c =? 8232) || (c =? 8233) || (c =? 8239) || (c =? 8287)
   || (c =? 12288))%N.

Fixpoint lstrip (s : str) : str :=
  match s with
  | [] => []
  | c :: rest => if isspace c then lstrip rest else s
  end.

Definition rstrip (s : str) : str := rev (lstrip (rev s)).

Definition strip (s : str) : str := rstrip (lstrip s).

(** [s.replace(ch, "")] for a one-character [ch]. *)
Definition remove_all (ch : N) (s : str) : str :=
  filter (fun c => negb (c =? ch)%N) s.

Fixpoint starts_with (prefix s : str) : bool :=
  match prefix, s with
  | [], _ => true
  | _ :: _, [] => false
  | p :: prefix', c :: s' => (p =? c)%N && starts_with prefix' s'
  end.

(** [needle in hay] *)
Fixpoint contains (needle hay : str) : bool :=
  starts_with needle hay
  || match hay with
     | [] => false
     | _ :: hay' => contains needle hay'
     end.

(** *** Numbers and text *)

Fixpoint uint_chars (d : Decimal.uint) : str :=
  (match d with
   | Decimal.Nil => []
   | Decimal.D0 d' => 48 :: uint_chars d'
   | Decimal.D1 d' => 49 :: uint_chars d'
   | Decimal.D2 d' => 50 :: uint_chars d'
   | Decimal.D3 d' => 51 :: uint_chars d'
   | Decimal.D4 d' => 52 :: uint_chars d'
   | Decimal.D5 d' => 53 :: uint_chars d'
   | Decimal.D6 d' => 54 :: uint_chars d'
   | Decimal.D7 d' => 55 :: uint_chars d'
   | Decimal.D8 d' => 56 :: uint_chars d'
   | Decimal.D9 d' => 57 :: uint_chars d'
   end)%N.

Definition int_chars (z : Z) : str :=
  match Z.to_int z with
  | Decimal.Pos d => uint_chars d
  | Decimal.Neg d => 45%N :: uint_chars d
  end.

(** Conversions between [int] and text stop at this many digits in current
    interpreters; what happens beyond is left out. *)
Definition max_str_digits : nat := 4300.

(** [str(v)] *)
Definition py_str (v : value) : outcome str :=
  match v with
  | VStr s => Ok s
  | VInt z =>
      if (List.length (int_chars (Z.abs z)) <=? max_str_digits)%nat
      then Ok (int_chars z) else Unmodelled
  | VBool true => Ok (lit "True")
  | VBool false => Ok (lit "False")
  | VNone => Ok (lit "None")
  | VFloat _ | VList _ | VDict _ => Unmodelled
  end.

Definition digit_value (c : N) : option Z :=
  if ((48 <=? c) && (c <=? 57))%N then Some (Z.of_N c - 48) else None.

(** Decimal digits, single underscores allowed between two digits. *)
Fixpoint parse_digits (acc : Z) (after_digit : bool) (s : str) : option Z :=
  match s with
  | [] => if after_digit then Some acc else None
  | c :: rest =>
      if (c =? 95)%N then
        if after_digit then parse_digits acc false rest else None
      else
        match digit_value c with
        | Some d => parse_digits (10 * acc + d) true rest
        | None => None
        end
  end.

Definition parse_signed (s : str) : option Z :=
  match s with
  | 43%N :: rest => parse_digits 0 false rest
  | 45%N :: rest => option_map Z.opp (parse_digits 0 false rest)
  | _ => parse_digits 0 false s
  end.

(** The blanks [int] skips around the digits: tab to carriage return, and
    space. *)
Definition ascii_space (c : N) : bool :=
  (((9 <=? c) && (c <=? 13)) || (c =? 32))%N.

Fixpoint skip_blanks (s : str) : str :=
  match s with
  | [] => []
  | c :: rest => if ascii_space c then skip_blanks rest else s
  end.

(** Printable ASCII and the blanks above: the text [int] is described on. *)
Definition plain_ascii (c : N) : bool :=
  (((32 <=? c) && (c <=? 126)) || ascii_space c)%N.

(** [int(s)] for text *)
Definition int_of_text (s : str) : outcome Z :=
  if forallb plain_ascii s && (List.length s <=? max_str_digits)%nat
  then
    match parse_signed (rev (skip_blanks (rev (skip_blanks s)))) with
    | Some z => Ok z
    | None => Raise ValueError
    end
  else Unmodelled.

Definition float_trunc (f : pyfloat) : outcome Z :=
  match f with
  | FNan => Raise ValueError
  | FInf _ => Raise OverflowError
  | FFin neg m e =>
      let mag := if 0 <=? e then Z.of_N m * 2 ^ e
                 else Z.of_N m / 2 ^ (- e) in
      Ok (if neg then - mag else mag)
  end.

(** [int(v)] *)
Definition py_int (v : value) : outcome Z :=
  match v with
  | VInt z => Ok z
  | VBool b => Ok (if b then 1 else 0)
  | VFloat f => float_trunc f
  | VStr s => int_of_text s
  | VNone | VList _ | VDict _ => Raise TypeError
  end.

(** ** norm *)

(** ["("], [")"], [" "] and ["번"] (U+BC88), in the order of the loop. *)
Definition removed_chars : list N := [40; 41; 32; 48264]%N.

(** The body of [norm] once [s] is known to be non-empty text. *)
Definition norm_text (s : str) : str :=
  fold_left (fun acc ch => remove_all ch acc) removed_chars (strip s).

Definition norm (s : value) : outcome str :=
  if negb (truthy s) then Ok []
  else match s with
       | VStr t => Ok (norm_text t)
       | _ => Raise AttributeError
       end.

(** ** Keys of the upstream payload *)

Definition k_result : str := Eval cbv in lit "result".
Definition k_path : str := Eval cbv in lit "path".
Definition k_info : str := Eval cbv in lit "info".
Definition k_totalTime : str := Eval cbv in lit "totalTime".
Definition k_mapObj : str := Eval cbv in lit "mapObj".
Definition k_subPath : str := Eval cbv in lit "subPath".
Definition k_trafficType : str := Eval cbv in lit "trafficType".
Definition k_lane : str := Eval cbv in lit "lane".
Definition k_busNo : str := Eval cbv in lit "busNo".
Definition k_name : str := Eval cbv in lit "name".
Definition k_passStopList : str := Eval cbv in lit "passStopList".
Definition k_stations : str := Eval cbv in lit "stations".
Definition k_station : str := Eval cbv in lit "station".
Definition k_stationName : str := Eval cbv in lit "stationName".

(** ** score_path_for_ride *)

(** [10**9] *)
Definition no_time : Z := 10 ^ 9.

(** Lines 96-97: [int(info.get("totalTime") or 10**9)]. *)
Definition total_time_of (path : value) : outcome Z :=
  info <- dict_get path k_info (VDict []) ;;
  field <- dict_get info k_totalTime VNone ;;
  py_int (py_or field (VInt no_time)).

(** Lines 109-122: the names one lane offers on a leg of type [ttype]. *)
Definition candidates_of (ttype lane : value) : outcome (list value) :=
  bus <- (if eq_int ttype 2 then
            bus_no <- dict_get lane k_busNo VNone ;;
            name <- dict_get lane k_name VNone ;;
            Ok ((if truthy bus_no then [bus_no] else [])
                ++ (if truthy name then [name] else []))
          else Ok []) ;;
  subway <- (if eq_int ttype 1 then
               name <- dict_get lane k_name VNone ;;
               Ok (if truthy name then [name] else [])
             else Ok []) ;;
  Ok (bus ++ subway).

(** Lines 124-128: the loop over one lane's candidates; the [break] leaves
    this loop only. *)
Fixpoint scan_candidates (ride_n : str) (candidates : list value) (score : Z)
  : outcome Z :=
  match candidates with
  | [] => Ok score
  | cand :: rest =>
      if nonempty ride_n then
        text <- py_str cand ;;
        cand_n <- norm (VStr text) ;;
        if contains ride_n cand_n then Ok (score + 10)
        else scan_candidates ride_n rest score
      else scan_candidates ride_n rest score
  end.

(** Lines 108-128: the loop over the lanes of one leg. *)
Fixpoint scan_lanes (ride_n : str) (ttype : value) (lanes : list value)
  (score : Z) : outcome Z :=
  match lanes with
  | [] => Ok score
  | lane :: rest =>
      candidates <- candidates_of ttype lane ;;
      score' <- scan_candidates ride_n candidates score ;;
      scan_lanes ride_n ttype rest score'
  end.

(** Lines 103-128: the loop over the legs. *)
Fixpoint scan_legs (ride_n : str) (sub_paths : list value) (score : Z)
  : outcome Z :=
  match sub_paths with
  | [] => Ok score
  | sp :: rest =>
      ttype <- dict_get sp k_trafficType VNone ;;
      if negb (eq_int ttype 1 || eq_int ttype 2) then
        scan_legs ride_n rest score
      else
        lane <- dict_get sp k_lane (VList []) ;;
        lanes <- py_iter (py_or lane (VList [])) ;;
        score' <- scan_lanes ride_n ttype lanes score ;;
        scan_legs ride_n rest score'
  end.

(** Lines 135-137: the normalized names of one stop list. *)
Fixpoint station_names (stations : list value) : outcome (list str) :=
  match stations with
  | [] => Ok []
  | st :: rest =>
      name <- dict_get st k_stationName VNone ;;
      name_n <- norm (py_or name (VStr [])) ;;
      names <- station_names rest ;;
      Ok (name_n :: names)
  end.

(** Lines 131-137: the pool [station_names_norm]. *)
Fixpoint collect_stations (sub_paths : list value) : outcome (list str) :=
  match sub_paths with
  | [] => Ok []
  | sp :: rest =>
      pass_stop_list <- dict_get sp k_passStopList VNone ;;
      let pass_list := py_or pass_stop_list (VDict []) in
      first <- dict_get pass_list k_stations (VList []) ;;
      stations <- (if truthy first then Ok first
                   else
                     second <- dict_get pass_list k_station (VList []) ;;
                     Ok (py_or second (VList []))) ;;
      items <- py_iter stations ;;
      here <- station_names items ;;
      later <- collect_stations rest ;;
      Ok (here ++ later)
  end.

(** Lines 139-142: at most 5 for [board] and 5 for [drop]. *)
Definition stop_points (board_n drop_n : str) (pool : list str) : Z :=
  (if nonempty board_n && existsb (contains board_n) pool then 5 else 0)
  + (if nonempty drop_n && existsb (contains drop_n) pool then 5 else 0).

Definition score_path_for_ride (path : value) (ride board drop : str)
  : outcome (Z * Z) :=
  ride_n <- norm (VStr ride) ;;
  board_n <- norm (VStr board) ;;
  drop_n <- norm (VStr drop) ;;
  total_time <- total_time_of path ;;
  sub_path <- dict_get path k_subPath (VList []) ;;
  let sub_paths := py_or sub_path (VList []) in
  score <- (if nonempty ride_n then
              legs <- py_iter sub_paths ;;
              scan_legs ride_n legs 0
            else Ok 0) ;;
  legs <- py_iter sub_paths ;;
  pool <- collect_stations legs ;;
  Ok (score + stop_points board_n drop_n pool, total_time).

(** ** select_path_for_ride *)

(** Line 158: [data["result"]["path"]] *)
Definition path_lookup (data : value) : outcome value :=
  result <- subscript data k_result ;;
  subscript result k_path.

(** Lines 157-160: the lookup under its [except (KeyError, TypeError)]. *)
Definition locate_paths (data : value) : outcome value :=
  match path_lookup data with
  | Raise KeyError | Raise TypeError =>
      Raise (HTTPException 500 PathMissing)
  | found => found
  end.

(** [best] of the loop: [(score, totalTime, path)], or [None]. *)
Definition best_so_far : Type := option (Z * Z * value).

(** Line 178 *)
Definition replaces (sc tt b_sc b_tt : Z) : bool :=
  (sc >? b_sc) || ((sc =? b_sc) && (tt <? b_tt)).

(** Lines 172-179: one round of the loop, once [p] is scored. *)
Definition track (best : best_so_far) (sc tt : Z) (p : value) : best_so_far :=
  match best with
  | None => Some (sc, tt, p)
  | Some (b_sc, b_tt, _) =>
      if replaces sc tt b_sc b_tt then Some (sc, tt, p) else best
  end.

Section Selector.

(** The selector calls the scorer as a black box; keeping it a variable
    lets a statement say that a result does not depend on it. *)
Variable scorer : value -> str -> str -> str -> outcome (Z * Z).

(** Lines 170-179 *)
Fixpoint scan_paths (paths : list value) (ride board drop : str)
  (best : best_so_far) : outcome best_so_far :=
  match paths with
  | [] => Ok best
  | p :: rest =>
      scored <- scorer p ride board drop ;;
      scan_paths rest ride board drop
        (track best (fst scored) (snd scored) p)
  end.

Definition select_with (data : value) (ride board drop : str)
  : outcome value :=
  paths <- locate_paths data ;;
  if negb (truthy paths) then Raise (HTTPException 404 NoPathFound)
  else if negb (nonempty ride || nonempty board || nonempty drop) then
    first_item paths
  else
    items <- py_iter paths ;;
    best <- scan_paths items ride board drop None ;;
    match best with
    | None => first_item paths
    | Some (best_score, _, best_path) =>
        if best_score =? 0 then first_item paths else Ok best_path
    end.

End Selector.

Definition select_path_for_ride : value -> str -> str -> str -> outcome value :=
  select_with score_path_for_ride.

(** ** get_map_obj *)

(** Lines 217-222, on the outcome [reply] of the [odsay_get] call; the
    coordinates only travel to that call. *)
Definition get_map_obj (reply : outcome value) (ride board drop : str)
  : outcome value :=
  data <- reply ;;
  path <- select_path_for_ride data ride board drop ;;
  info <- dict_get path k_info (VDict []) ;;
  map_obj <- dict_get info k_mapObj VNone ;;
  if negb (truthy map_obj) then Raise (HTTPException 500 MapObjMissing)
  else Ok map_obj.


(** ** odsay_get, get_lane_graph and get_route *)

Definition ODSAY_BASE : str := Eval cbv in lit "https://api.odsay.com/v1/api".

(** [LIB_LAT = 37.563729] and [LIB_LNG = 126.936898], as the doubles the
    literals denote. *)
Definition LIB_LAT : pyfloat := FFin false 5286624872720197 (-47).
Definition LIB_LNG : pyfloat := FFin false 8932390102068229 (-46).

Definition routing_endpoint : str := Eval cbv in lit "searchPubTransPathT".
Definition lane_endpoint : str := Eval cbv in lit "loadLane".
Definition lane_prefix : str := Eval cbv in lit "0:0@".
Definition json_text : str := Eval cbv in lit "json".
Definition default_msg : str := Eval cbv in lit "ODSAY error".

Definition k_error : str := Eval cbv in lit "error".
Definition k_msg : str := Eval cbv in lit "msg".
Definition k_code : str := Eval cbv in lit "code".
Definition k_apiKey : str := Eval cbv in lit "apiKey".
Definition k_lang : str := Eval cbv in lit "lang".
Definition k_output : str := Eval cbv in lit "output".
Definition k_mapObject : str := Eval cbv in lit "mapObject".
Definition k_SX : str := Eval cbv in lit "SX".
Definition k_SY : str := Eval cbv in lit "SY".
Definition k_EX : str := Eval cbv in lit "EX".
Definition k_EY : str := Eval cbv in lit "EY".
Definition k_OPT : str := Eval cbv in lit "OPT".
Definition k_SearchPathType : str := Eval cbv in lit "SearchPathType".

(** [d[k] = v]: a key already there keeps its place. *)
Fixpoint dict_set (k : str) (v : value) (kvs : list (str * value))
  : list (str * value) :=
  match kvs with
  | [] => [(k, v)]
  | (k', v') :: rest =>
      if str_eqb k k' then (k', v) :: rest
      else (k', v') :: dict_set k v rest
  end.

(** [d.update(other)] *)
Definition dict_update (kvs other : list (str * value))
  : list (str * value) :=
  fold_left (fun acc kv => dict_set (fst kv) (snd kv) acc) other kvs.

(** [endpoint.lstrip('/')] *)
Fixpoint lstrip_slash (s : str) : str :=
  match s with
  | [] => []
  | c :: rest => if (c =? 47)%N then lstrip_slash rest else s
  end.

(** The [detail] of the [HTTPException]s that [odsay_get] raises: the key
    is not set (line 41), the HTTP exchange failed (line 57, the text of
    the [httpx] error left out), or the payload reports an error (line 63,
    kept by the [code] and [msg] the text is formatted from). *)
Inductive odsay_detail :=
| KeyNotSet
| HttpFailed
| Reported (code msg : value).

(** What the [try] of lines 52-57 and [resp.json()] meet: an
    [httpx.HTTPError], or a response whose body parses to a value or does
    not parse. *)
Inductive transport :=
| HTTPError
| Body (json : option value).

(** The outcome of code that calls [odsay_get]: one of its
    [HTTPException]s, or an outcome as before. *)
Inductive via_odsay (A : Type) :=
| Odsay_raised (status_code : Z) (d : odsay_detail)
| Otherwise (o : outcome A).
Arguments Odsay_raised {A} status_code d.
Arguments Otherwise {A} o.

(** Line 44 *)
Definition request_url (endpoint : str) : str :=
  ODSAY_BASE ++ [47%N] ++ lstrip_slash endpoint.

(** Lines 45-50; [params] is a dict, so [params or {}] is [params]. *)
Definition merged_params (key : str) (params : list (str * value))
  : list (str * value) :=
  dict_update
    [(k_apiKey, VStr key); (k_lang, VInt 0);
     (k_output, VStr json_text)]
    params.

(** Lines 208-213 *)
Definition routing_params (from_lat from_lng : pyfloat)
  : list (str * value) :=
  [(k_SX, VFloat from_lng); (k_SY, VFloat from_lat);
   (k_EX, VFloat LIB_LNG); (k_EY, VFloat LIB_LAT);
   (k_OPT, VInt 0); (k_SearchPathType, VInt 0)].

Section Upstream.

(** [os.getenv("ODSAY_API_KEY")] *)
Variable ODSAY_KEY : option str.

(** The ODsay service, by what a GET of a URL with parameters meets. *)
Variable http_get : str -> list (str * value) -> transport.

(** Lines 38-65 *)
Definition odsay_get (endpoint : str) (params : list (str * value))
  : via_odsay value :=
  match ODSAY_KEY with
  | None | Some [] => Odsay_raised 500 KeyNotSet
  | Some key =>
      match http_get (request_url endpoint) (merged_params key params) with
      | HTTPError => Odsay_raised 502 HttpFailed
      | Body None => Otherwise (Raise ValueError)
      | Body (Some data) =>
          match data with
          | VDict kvs =>
              match lookup k_error kvs with
              | Some error =>
                  match
                    (msg <- dict_get error k_msg
                              (VStr default_msg) ;;
                     code <- dict_get error k_code (VStr []) ;;
                     Ok (code, msg))
                  with
                  | Ok (code, msg) => Odsay_raised 502 (Reported code msg)
                  | Raise e => Otherwise (Raise e)
                  | Unmodelled => Otherwise Unmodelled
                  end
              | None => Otherwise (Ok data)
              end
          | _ => Otherwise (Ok data)
          end
      end
  end.

(** Lines 194-222: [get_map_obj] with its call of [odsay_get]. *)
Definition get_map_obj_for (from_lat from_lng : pyfloat)
  (ride board drop : str) : via_odsay value :=
  match odsay_get routing_endpoint
          (routing_params from_lat from_lng) with
  | Odsay_raised status_code d => Odsay_raised status_code d
  | Otherwise reply => Otherwise (get_map_obj reply ride board drop)
  end.

(** Lines 224-235; the f-string is formatted before the call. *)
Definition get_lane_graph (map_obj : value) : via_odsay value :=
  match py_str map_obj with
  | Ok handle =>
      odsay_get lane_endpoint
        [(k_mapObject, VStr (lane_prefix ++ handle))]
  | Raise e => Otherwise (Raise e)
  | Unmodelled => Otherwise Unmodelled
  end.

(** Lines 240-255 *)
Definition get_route (from_lat from_lng : pyfloat) (ride board drop : str)
  : via_odsay value :=
  match get_map_obj_for from_lat from_lng ride board drop with
  | Odsay_raised status_code d => Odsay_raised status_code d
  | Otherwise (Ok map_obj) => get_lane_graph map_obj
  | Otherwise (Raise e) => Otherwise (Raise e)
  | Otherwise Unmodelled => Otherwise Unmodelled
  end.

End Upstream.
(** ** Vocabulary of the statements *)

(** What [norm] keeps of a character. *)
Definition kept (c : N) : bool :=
  (negb (c =? 40) && negb (c =? 41) && negb (c =? 32) && negb (c =? 48264))%N.

(** No blank at either end. *)
Definition trimmed (s : str) : bool :=
  match s with [] => true | c :: _ => negb (isspace c) end
  && match rev s with [] => true | c :: _ => negb (isspace c) end.

(** Every blank of [s] is the plain space U+0020. *)
Definition plain_spaces_only (s : str) : bool :=
  forallb (fun c => negb (isspace c) || (c =? 32)%N) s.


(** *** What the scorer reads of a route *)

(** [info.get("totalTime")], [None] when [info] or the key is not there. *)
Definition time_field (path : value) : value :=
  match dict_get path k_info (VDict []) with
  | Ok info =>
      match dict_get info k_totalTime VNone with
      | Ok field => field
      | _ => VNone
      end
  | _ => VNone
  end.

(** The legs both loops visit. *)
Definition legs_of (path : value) : list value :=
  match dict_get path k_subPath (VList []) with
  | Ok sub_path =>
      match py_iter (py_or sub_path (VList [])) with
      | Ok legs => legs
      | _ => []
      end
  | _ => []
  end.

(** The pool of normalized stop names. *)
Definition station_pool (path : value) : list str :=
  match collect_stations (legs_of path) with
  | Ok pool => pool
  | _ => []
  end.

Definition leg_type (sp : value) : value :=
  match dict_get sp k_trafficType VNone with
  | Ok ttype => ttype
  | _ => VNone
  end.

(** Subway (1) or bus (2). *)
Definition rides (ttype : value) : bool := eq_int ttype 1 || eq_int ttype 2.

Definition leg_lanes (sp : value) : list value :=
  match dict_get sp k_lane (VList []) with
  | Ok lane =>
      match py_iter (py_or lane (VList [])) with
      | Ok lanes => lanes
      | _ => []
      end
  | _ => []
  end.

(** The normalized hint is part of the normalized candidate name. *)
Definition cand_matches (ride_n : str) (cand : value) : bool :=
  match py_str cand with
  | Ok text => contains ride_n (norm_text text)
  | _ => false
  end.

(** A lane matches when one of its candidate names does. *)
Definition lane_matches (ride_n : str) (ttype lane : value) : bool :=
  match candidates_of ttype lane with
  | Ok candidates => existsb (cand_matches ride_n) candidates
  | _ => false
  end.

(** The matching lanes of one leg. *)
Definition matching_lanes (ride_n : str) (sp : value) : nat :=
  if rides (leg_type sp)
  then List.length (filter (lane_matches ride_n (leg_type sp)) (leg_lanes sp))
  else 0%nat.

(** Ride points counted lane by lane: 10 for every matching lane. *)
Definition ride_points (ride_n : str) (legs : list value) : Z :=
  10 * Z.of_nat (list_sum (map (matching_lanes ride_n) legs)).

(** Ride points counted leg by leg: 10 for every leg with a matching lane,
    however many of its lanes match. *)
Definition ride_points_per_leg (ride_n : str) (legs : list value) : Z :=
  10 * Z.of_nat
         (List.length
            (filter (fun sp => (0 <? matching_lanes ride_n sp)%nat) legs)).

(** *** The payload shape of the data model

    A route as the data model describes it: [info] with an integer
    [totalTime], legs with lanes named by optional texts and a stop list
    of named stops; every field may be missing or [null]. *)

Definition is_text (v : value) : bool :=
  match v with VStr _ => true | _ => false end.

Definition optional_text (v : option value) : bool :=
  match v with
  | None | Some VNone | Some (VStr _) => true
  | _ => false
  end.

Definition optional_list (wf : value -> bool) (v : option value) : bool :=
  match v with
  | None | Some VNone => true
  | Some (VList items) => forallb wf items
  | _ => false
  end.

Definition wf_lane (lane : value) : bool :=
  match lane with
  | VDict kvs =>
      optional_text (lookup k_busNo kvs) && optional_text (lookup k_name kvs)
  | _ => false
  end.

Definition wf_stop (st : value) : bool :=
  match st with
  | VDict kvs => optional_text (lookup k_stationName kvs)
  | _ => false
  end.

Definition wf_stop_list (v : option value) : bool :=
  match v with
  | None | Some VNone => true
  | Some (VDict kvs) =>
      optional_list wf_stop (lookup k_stations kvs)
      && optional_list wf_stop (lookup k_station kvs)
  | _ => false
  end.

Definition wf_leg (sp : value) : bool :=
  match sp with
  | VDict kvs =>
      optional_list wf_lane (lookup k_lane kvs)
      && wf_stop_list (lookup k_passStopList kvs)
  | _ => false
  end.

Definition wf_info (v : option value) : bool :=
  match v with
  | None => true
  | Some (VDict kvs) =>
      match lookup k_totalTime kvs with
      | None | Some VNone | Some (VInt _) => true
      | _ => false
      end
  | _ => false
  end.

Definition wf_route (path : value) : bool :=
  match path with
  | VDict kvs =>
      wf_info (lookup k_info kvs) && optional_list wf_leg (lookup k_subPath kvs)
  | _ => false
  end.

(** *** What the selector compares *)

(** [not (ride or board or drop)] fails. *)
Definition hints_present (ride board drop : str) : bool :=
  nonempty ride || nonempty board || nonempty drop.

(** [c] is strictly better than [b]: a higher score, or the same score in
    less time. *)
Definition beats (c b : Z * Z) : Prop :=
  fst c > fst b \/ (fst c = fst b /\ snd c < snd b).

(** [scores] lists what the scorer returns for [paths], route by route. *)
Definition scored_by (scorer : value -> str -> str -> str -> outcome (Z * Z))
  (ride board drop : str) (paths : list value) (scores : list (Z * Z))
  : Prop :=
  Forall2 (fun p s => scorer p ride board drop = Ok s) paths scores.

(** The scorer returns for every route of [paths]. *)
Definition all_scored (ride board drop : str) (paths : list value) : Prop :=
  Forall (fun p => exists s, score_path_for_ride p ride board drop = Ok s)
    paths.

(** The loop of lines 170-179 over routes already scored. *)
Fixpoint track_all (scored : list (Z * Z * value)) (best : best_so_far)
  : best_so_far :=
  match scored with
  | [] => best
  | (s, p) :: rest => track_all rest (track best (fst s) (snd s) p)
  end.

(** The highest score of a list of results. *)
Definition max_score (scores : list (Z * Z)) : option Z :=
  match scores with
  | [] => None
  | s :: rest => Some (fold_left Z.max (map fst rest) (fst s))
  end.

(** The outcome is not an [HTTPException]. *)
Definition not_http {A} (o : outcome A) : Prop :=
  forall status_code d, o <> Raise (HTTPException status_code d).

(** *** Sample payloads *)

Definition text (s : string) : value := VStr (lit s).

Definition bus_lane (bus_no : string) : value :=
  VDict [(k_busNo, text bus_no)].

Definition bus_leg (lanes : list value) : value :=
  VDict [(k_trafficType, VInt 2); (k_lane, VList lanes)].

Definition route (total_time : value) (map_obj : string)
  (legs : list value) : value :=
  VDict [(k_info, VDict [(k_totalTime, total_time); (k_mapObj, text map_obj)]);
         (k_subPath, VList legs)].

Definition payload (paths : list value) : value :=
  VDict [(k_result, VDict [(k_path, VList paths)])].

(** One bus leg served by two lines, 401 and 4011. *)
Definition two_lane_leg : value := bus_leg [bus_lane "401"; bus_lane "4011"].
Definition two_lane_route : value := route (VInt 30) "A" [two_lane_leg].

(** A route taking the 401, with the time and handle given. *)
Definition route_401 (total_time : value) (map_obj : string) : value :=
  route total_time map_obj [bus_leg [bus_lane "401"]].

(** A walk only. *)
Definition walk_route (total_time : value) (map_obj : string) : value :=
  route total_time map_obj [VDict [(k_trafficType, VInt 3)]].




(** A lane reply. *)
Definition lane_body : value := VDict [(k_result, VDict [(k_lane, VList [])])].

(** A service that answers the routing request with one route taking the
    401 and every other request with [lane_body]. *)
Definition sample_service (url : str) (sent : list (str * value))
  : transport :=
  if str_eqb url (request_url routing_endpoint)
  then Body (Some (payload [route_401 (VInt 30) "A"]))
  else Body (Some lane_body).

(** A service whose routing exchange fails. *)
Definition routing_down (url : str) (sent : list (str * value)) : transport :=
  if str_eqb url (request_url routing_endpoint) then HTTPError
  else Body (Some lane_body).
(** ** Properties of the text built-ins *)

Lemma lstrip_split (s : str) :
  exists pre, s = pre ++ lstrip s /\ forallb isspace pre = true.
Proof.
  induction s as [|c s IH]; simpl.
  - exists []. split; reflexivity.
  - destruct (isspace c) eqn:Hc.
    + destruct IH as [pre [Heq Hpre]].
      exists (c :: pre). simpl. rewrite Hc, Hpre. split.
      * f_equal. exact Heq.
      * reflexivity.
    + exists []. split; reflexivity.
Qed.

Lemma lstrip_head (s : str) (c : N) (rest : str) :
  lstrip s = c :: rest -> isspace c = false.
Proof.
  induction s as [|a s IH]; simpl; intros H.
  - discriminate.
  - destruct (isspace a) eqn:Ha.
    + apply IH. exact H.
    + injection H as -> _. exact Ha.
Qed.

Lemma lstrip_fixed (s : str) :
  match s with [] => true | c :: _ => negb (isspace c) end = true ->
  lstrip s = s.
Proof.
  destruct s as [|c s]; simpl; intros H.
  - reflexivity.
  - apply negb_true_iff in H. rewrite H. reflexivity.
Qed.

Lemma forallb_rev {A} (f : A -> bool) (l : list A) :
  forallb f (rev l) = forallb f l.
Proof.
  induction l as [|a l IH]; simpl.
  - reflexivity.
  - rewrite forallb_app, IH. simpl. rewrite andb_true_r. apply andb_comm.
Qed.

Lemma rstrip_split (s : str) :
  exists suf, s = rstrip s ++ suf /\ forallb isspace suf = true.
Proof.
  unfold rstrip.
  destruct (lstrip_split (rev s)) as [pre [Heq Hpre]].
  exists (rev pre). split.
  - rewrite <- rev_app_distr, <- Heq, rev_involutive. reflexivity.
  - rewrite forallb_rev. exact Hpre.
Qed.

Lemma strip_split (s : str) :
  exists pre suf,
    s = pre ++ strip s ++ suf
    /\ forallb isspace pre = true /\ forallb isspace suf = true.
Proof.
  destruct (lstrip_split s) as [pre [Hl Hpre]].
  destruct (rstrip_split (lstrip s)) as [suf [Hr Hsuf]].
  exists pre, suf. unfold strip. rewrite <- Hr. auto.
Qed.

Lemma strip_trimmed (s : str) : trimmed (strip s) = true.
Proof.
  unfold trimmed. apply andb_true_intro. split.
  - destruct (strip s) as [|c rest] eqn:Hs; [reflexivity|].
    destruct (rstrip_split (lstrip s)) as [suf [Hr _]].
    fold (strip s) in Hr. rewrite Hs in Hr. simpl in Hr.
    apply lstrip_head in Hr. rewrite Hr. reflexivity.
  - unfold strip, rstrip. rewrite rev_involutive.
    destruct (lstrip (rev (lstrip s))) as [|c rest] eqn:Hs; [reflexivity|].
    apply lstrip_head in Hs. rewrite Hs. reflexivity.
Qed.

Lemma strip_fixed (s : str) : trimmed s = true -> strip s = s.
Proof.
  unfold trimmed. intros H. apply andb_prop in H. destruct H as [Hl Hr].
  unfold strip, rstrip. rewrite (lstrip_fixed s Hl).
  rewrite (lstrip_fixed (rev s) Hr). apply rev_involutive.
Qed.

Lemma strip_incl (s : str) (c : N) : In c (strip s) -> In c s.
Proof.
  intros H. destruct (strip_split s) as [pre [suf [Heq _]]].
  rewrite Heq. apply in_or_app. right. apply in_or_app. left. exact H.
Qed.

Lemma removals_filter (l : str) :
  fold_left (fun acc ch => remove_all ch acc) removed_chars l = filter kept l.
Proof.
  unfold removed_chars, remove_all. simpl.
  induction l as [|c l IH]; simpl.
  - reflexivity.
  - unfold kept at 1.
    destruct (c =? 40)%N; simpl; [exact IH|].
    destruct (c =? 41)%N; simpl; [exact IH|].
    destruct (c =? 32)%N; simpl; [exact IH|].
    destruct (c =? 48264)%N; simpl; [exact IH|].
    f_equal. exact IH.
Qed.

Lemma norm_text_filter (s : str) : norm_text s = filter kept (strip s).
Proof. unfold norm_text. apply removals_filter. Qed.

Lemma filter_all {A} (f : A -> bool) (l : list A) :
  forallb f l = true -> filter f l = l.
Proof.
  induction l as [|a l IH]; simpl; intros H.
  - reflexivity.
  - apply andb_prop in H. destruct H as [Ha Hl].
    rewrite Ha. f_equal. apply IH. exact Hl.
Qed.

Lemma filter_forallb {A} (f : A -> bool) (l : list A) :
  forallb f (filter f l) = true.
Proof.
  apply forallb_forall. intros x Hx. apply filter_In in Hx. tauto.
Qed.

Lemma norm_text_kept (s : str) : forallb kept (norm_text s) = true.
Proof. rewrite norm_text_filter. apply filter_forallb. Qed.

(** A second pass only strips: the four characters are already gone. *)
Lemma norm_text_twice (s : str) :
  norm_text (norm_text s) = strip (norm_text s).
Proof.
  rewrite (norm_text_filter (norm_text s)).
  apply filter_all. apply forallb_forall. intros c Hc.
  apply strip_incl in Hc.
  pose proof (norm_text_kept s) as Hk.
  rewrite forallb_forall in Hk. apply Hk. exact Hc.
Qed.

Lemma norm_of_text (s : str) : norm (VStr s) = Ok (norm_text s).
Proof. destruct s; reflexivity. Qed.

Lemma norm_text_no_blank (s : str) :
  plain_spaces_only s = true ->
  forallb (fun c => negb (isspace c)) (norm_text s) = true.
Proof.
  intros Hs. apply forallb_forall. intros c Hc.
  pose proof (norm_text_kept s) as Hk.
  rewrite forallb_forall in Hk. specialize (Hk c Hc).
  rewrite norm_text_filter in Hc. apply filter_In in Hc.
  destruct Hc as [Hc _]. apply strip_incl in Hc.
  unfold plain_spaces_only in Hs. rewrite forallb_forall in Hs.
  specialize (Hs c Hc). apply orb_prop in Hs. destruct Hs as [Hs|Hs].
  - exact Hs.
  - unfold kept in Hk. rewrite Hs in Hk. simpl in Hk.
    rewrite andb_false_r in Hk. discriminate.
Qed.

Lemma no_blank_trimmed (s : str) :
  forallb (fun c => negb (isspace c)) s = true -> trimmed s = true.
Proof.
  intros H. unfold trimmed. apply andb_true_intro. split.
  - destruct s as [|c s]; [reflexivity|]. simpl in H.
    apply andb_prop in H. tauto.
  - rewrite <- forallb_rev in H.
    destruct (rev s) as [|c r]; [reflexivity|]. simpl in H.
    apply andb_prop in H. tauto.
Qed.

(** *** The contract of [norm] *)

(** C7 (as the code has it): [norm] yields the empty text on [None] and on
    empty text; on any text [x] it yields [strip x] (the text without its
    leading and trailing blanks) with every ["("], [")"], plain space U+0020
    and ["번"] deleted and every other character kept in place; so
    [norm " 401(간선) "] is ["401간선"].  Blanks other than U+0020 inside
    the text stay. *)
Theorem norm_contract (x : str) :
  norm VNone = Ok []
  /\ norm (VStr []) = Ok []
  /\ (exists pre suf,
        x = pre ++ strip x ++ suf
        /\ forallb isspace pre = true /\ forallb isspace suf = true)
  /\ trimmed (strip x) = true
  /\ norm (VStr x) = Ok (filter kept (strip x))
  /\ norm (VStr [32; 52; 48; 49; 40; 44036; 49440; 41; 32]%N)
     = Ok [52; 48; 49; 44036; 49440]%N.
Proof.
  split; [reflexivity|]. split; [reflexivity|].
  split; [apply strip_split|]. split; [apply strip_trimmed|].
  split; [|reflexivity].
  rewrite norm_of_text, norm_text_filter. reflexivity.
Qed.

(** C7, against every interior blank being removed: the tab inside
    ["a\tb"] is a blank for [strip] and stays. *)
Lemma norm_keeps_inner_tab :
  isspace 9 = true /\ norm (VStr [97; 9; 98]%N) = Ok [97; 9; 98]%N.
Proof. split; reflexivity. Qed.

(** C8 (as the code has it): [norm] returns on [None] and on every text; a
    second pass only strips what the first returned; and when every blank
    of [x] is a plain space U+0020 the second pass changes nothing. *)
Theorem norm_idempotent_on_plain_spaces (x : str) :
  norm VNone = Ok []
  /\ exists y,
       norm (VStr x) = Ok y
       /\ norm (VStr y) = Ok (strip y)
       /\ (plain_spaces_only x = true -> norm (VStr y) = Ok y).
Proof.
  split; [reflexivity|]. exists (norm_text x).
  split; [apply norm_of_text|].
  rewrite norm_of_text, norm_text_twice. split; [reflexivity|].
  intros H. f_equal. apply strip_fixed. apply no_blank_trimmed.
  apply norm_text_no_blank. exact H.
Qed.

Lemma norm_idempotent_on_plain_spaces_witness :
  norm (VStr [52; 48; 49; 44036; 49440]%N) = Ok [52; 48; 49; 44036; 49440]%N.
Proof.
  destruct (norm_idempotent_on_plain_spaces
              [32; 52; 48; 49; 40; 44036; 49440; 41; 32]%N)
    as [_ [y [Hy [_ Hidem]]]].
  injection Hy as <-. apply Hidem. reflexivity.
Defined.

(** C8, against idempotence on every text: ["401\t번"] normalizes to
    ["401\t"], which normalizes to ["401"]. *)
Lemma norm_not_idempotent :
  norm (VStr [52; 48; 49; 9; 48264]%N) = Ok [52; 48; 49; 9]%N
  /\ norm (VStr [52; 48; 49; 9]%N) = Ok [52; 48; 49]%N.
Proof. split; reflexivity. Qed.

(** ** The order the selector ranks by *)

Lemma replaces_iff (sc tm b_sc b_tt : Z) :
  replaces sc tm b_sc b_tt = true <-> beats (sc, tm) (b_sc, b_tt).
Proof.
  unfold replaces, beats. simpl.
  rewrite orb_true_iff, andb_true_iff, Z.gtb_gt, Z.eqb_eq, Z.ltb_lt.
  reflexivity.
Qed.

Lemma replaces_false_iff (sc tm b_sc b_tt : Z) :
  replaces sc tm b_sc b_tt = false <-> ~ beats (sc, tm) (b_sc, b_tt).
Proof.
  rewrite <- replaces_iff. destruct (replaces sc tm b_sc b_tt).
  - split; [discriminate | intros H; exfalso; apply H; reflexivity].
  - split; [intros _ H; discriminate | reflexivity].
Qed.

Lemma beats_trans (a b c : Z * Z) : beats a b -> beats b c -> beats a c.
Proof. unfold beats. lia. Qed.

Lemma beats_over (a b c : Z * Z) : beats a b -> ~ beats c b -> beats a c.
Proof. unfold beats. lia. Qed.

Lemma beats_irrefl (a : Z * Z) : ~ beats a a.
Proof. unfold beats. lia. Qed.

Lemma beats_score (a b : Z * Z) : beats a b -> fst b <= fst a.
Proof. unfold beats. lia. Qed.

Lemma not_beats_score (a b : Z * Z) : ~ beats a b -> fst a <= fst b.
Proof. unfold beats. lia. Qed.

(** ** Properties of the scorer *)

#[local] Arguments Z.mul : simpl never.
#[local] Arguments Z.of_nat : simpl never.

Lemma bind_Ok {A B} (c : outcome A) (k : A -> outcome B) (b : B) :
  bind c k = Ok b -> exists a, c = Ok a /\ k a = Ok b.
Proof.
  destruct c as [a| |]; simpl; intros H; try discriminate.
  exists a. split; [reflexivity | exact H].
Qed.

(** Splits a hypothesis [x <- c ;; k = Ok r] into its two steps. *)
Ltac bind_inv H :=
  let a := fresh "a" in
  let Ha := fresh "Hstep" in
  apply bind_Ok in H; destruct H as [a [Ha H]].

Lemma scan_candidates_points (ride_n : str) (candidates : list value)
  (score score' : Z) :
  nonempty ride_n = true ->
  scan_candidates ride_n candidates score = Ok score' ->
  score' = score
           + (if existsb (cand_matches ride_n) candidates then 10 else 0).
Proof.
  intros Hn. induction candidates as [|cand rest IH]; simpl; intros H.
  - injection H as <-. lia.
  - rewrite Hn in H. unfold cand_matches at 1.
    bind_inv H. rewrite Hstep. rewrite norm_of_text in H. simpl in H.
    destruct (contains ride_n (norm_text a)); simpl.
    + injection H as <-. reflexivity.
    + apply IH. exact H.
Qed.

Lemma scan_lanes_points (ride_n : str) (ttype : value) (lanes : list value) :
  nonempty ride_n = true ->
  forall score score',
    scan_lanes ride_n ttype lanes score = Ok score' ->
    score' = score
             + 10 * Z.of_nat
                      (List.length (filter (lane_matches ride_n ttype) lanes)).
Proof.
  intros Hn. induction lanes as [|lane rest IH]; simpl; intros score score' H.
  - injection H as <-. lia.
  - bind_inv H. bind_inv H.
    apply (scan_candidates_points _ _ _ _ Hn) in Hstep0.
    apply IH in H. unfold lane_matches at 1. rewrite Hstep.
    destruct (existsb (cand_matches ride_n) a); cbn [List.length]; lia.
Qed.

Lemma scan_legs_points (ride_n : str) (legs : list value) :
  nonempty ride_n = true ->
  forall score score',
    scan_legs ride_n legs score = Ok score' ->
    score' = score + ride_points ride_n legs.
Proof.
  intros Hn. unfold ride_points.
  induction legs as [|sp rest IH]; simpl; intros score score' H.
  - injection H as <-. lia.
  - bind_inv H. unfold matching_lanes at 1, leg_type, rides.
    rewrite Hstep.
    destruct (eq_int a 1 || eq_int a 2) eqn:Ht; simpl in H.
    + bind_inv H. bind_inv H. bind_inv H.
      apply (scan_lanes_points _ _ _ Hn) in Hstep2.
      apply IH in H. unfold leg_lanes. rewrite Hstep0, Hstep1.
      rewrite Nat2Z.inj_add. lia.
    + apply IH in H. simpl. exact H.
Qed.

(** The score is the ride points, counted lane by lane, plus the stop
    points; the time is what lines 96-97 compute. *)
Lemma score_path_for_ride_Ok (path : value) (ride board drop : str)
  (sc tm : Z) :
  score_path_for_ride path ride board drop = Ok (sc, tm) ->
  total_time_of path = Ok tm
  /\ collect_stations (legs_of path) = Ok (station_pool path)
  /\ sc = (if nonempty (norm_text ride)
           then ride_points (norm_text ride) (legs_of path) else 0)
          + stop_points (norm_text board) (norm_text drop)
              (station_pool path).
Proof.
  unfold score_path_for_ride. rewrite !norm_of_text. simpl bind. intros H.
  bind_inv H. bind_inv H. bind_inv H. bind_inv H. bind_inv H.
  injection H as <- <-.
  assert (Hlegs : legs_of path = a2).
  { unfold legs_of. rewrite Hstep0, Hstep2. reflexivity. }
  assert (Hpool : station_pool path = a3).
  { unfold station_pool. rewrite Hlegs, Hstep3. reflexivity. }
  rewrite Hlegs, Hpool. repeat split.
  - exact Hstep.
  - exact Hstep3.
  - f_equal. destruct (nonempty (norm_text ride)) eqn:Hn.
    + bind_inv Hstep1. rewrite Hstep2 in Hstep4. injection Hstep4 as <-.
      apply (scan_legs_points _ _ Hn) in Hstep1. lia.
    + injection Hstep1 as <-. reflexivity.
Qed.

(** *** The scorer returns on every route of the data model *)

Lemma optional_list_iter (wf : value -> bool) (found : option value) :
  optional_list wf found = true ->
  exists items,
    py_iter (py_or (match found with Some v => v | None => VList [] end)
               (VList [])) = Ok items
    /\ forallb wf items = true.
Proof.
  destruct found as [v|]; simpl.
  - destruct v; try discriminate.
    + intros _. exists []. split; reflexivity.
    + intros H. destruct items as [|x items].
      * exists []. split; reflexivity.
      * exists (x :: items). split; [reflexivity | exact H].
  - intros _. exists []. split; reflexivity.
Qed.

Lemma scan_candidates_total (ride_n : str) (candidates : list value)
  (score : Z) :
  forallb is_text candidates = true ->
  exists score', scan_candidates ride_n candidates score = Ok score'.
Proof.
  induction candidates as [|cand rest IH]; simpl; intros H.
  - eauto.
  - apply andb_prop in H. destruct H as [Hc Hrest].
    destruct cand; try discriminate.
    destruct (nonempty ride_n); [|auto].
    simpl. rewrite norm_of_text. simpl.
    destruct (contains ride_n (norm_text s)); eauto.
Qed.

Lemma candidates_of_total (ttype lane : value) :
  wf_lane lane = true ->
  exists candidates,
    candidates_of ttype lane = Ok candidates
    /\ forallb is_text candidates = true.
Proof.
  destruct lane; try discriminate. simpl. intros H.
  apply andb_prop in H. destruct H as [Hb Hn].
  unfold candidates_of, dict_get.
  destruct (lookup k_busNo kvs) as [[| | | |[|c s]| |]|];
    try discriminate;
    destruct (lookup k_name kvs) as [[| | | |[|c' s']| |]|];
    try discriminate;
    destruct (eq_int ttype 2), (eq_int ttype 1); simpl;
    eexists; split; reflexivity.
Qed.

Lemma scan_lanes_total (ride_n : str) (ttype : value) (lanes : list value) :
  forallb wf_lane lanes = true ->
  forall score, exists score', scan_lanes ride_n ttype lanes score = Ok score'.
Proof.
  induction lanes as [|lane rest IH]; simpl; intros H score.
  - eauto.
  - apply andb_prop in H. destruct H as [Hl Hrest].
    destruct (candidates_of_total ttype lane Hl) as [cands [Hc Ht]].
    rewrite Hc. simpl.
    destruct (scan_candidates_total ride_n cands score Ht) as [s Hs].
    rewrite Hs. simpl. apply IH. exact Hrest.
Qed.

Lemma scan_legs_total (ride_n : str) (legs : list value) :
  forallb wf_leg legs = true ->
  forall score, exists score', scan_legs ride_n legs score = Ok score'.
Proof.
  induction legs as [|sp rest IH]; simpl; intros H score.
  - eauto.
  - apply andb_prop in H. destruct H as [Hsp Hrest].
    destruct sp; try discriminate. simpl in Hsp.
    apply andb_prop in Hsp. destruct Hsp as [Hlanes _].
    simpl.
    destruct (negb _); [apply IH; exact Hrest|].
    destruct (optional_list_iter _ _ Hlanes) as [lanes [Hi Hwf]].
    rewrite Hi. simpl.
    destruct (scan_lanes_total ride_n
                (match lookup k_trafficType kvs with
                 | Some v => v
                 | None => VNone
                 end) lanes Hwf score) as [s Hs].
    rewrite Hs. simpl. apply IH. exact Hrest.
Qed.

Lemma station_names_total (stations : list value) :
  forallb wf_stop stations = true ->
  exists names, station_names stations = Ok names.
Proof.
  induction stations as [|st rest IH]; simpl; intros H.
  - eauto.
  - apply andb_prop in H. destruct H as [Hst Hrest].
    destruct (IH Hrest) as [names Hnames].
    destruct st; try discriminate. simpl in Hst. simpl.
    destruct (lookup k_stationName kvs) as [[| | | |[|c s]| |]|];
      try discriminate; simpl; rewrite Hnames; simpl; eauto.
Qed.

Lemma stations_total (kvs : list (str * value)) :
  optional_list wf_stop (lookup k_stations kvs) = true ->
  optional_list wf_stop (lookup k_station kvs) = true ->
  exists names,
    (first <- dict_get (VDict kvs) k_stations (VList []) ;;
     stations <- (if truthy first then Ok first
                  else
                    second <- dict_get (VDict kvs) k_station (VList []) ;;
                    Ok (py_or second (VList []))) ;;
     items <- py_iter stations ;;
     station_names items) = Ok names.
Proof.
  intros H1 H2. cbn [dict_get bind].
  assert (Hsecond :
    exists names,
      (items <- py_iter
                  (py_or (match lookup k_station kvs with
                          | Some v => v
                          | None => VList []
                          end) (VList [])) ;;
       station_names items) = Ok names).
  { destruct (optional_list_iter _ _ H2) as [l2 [Hi2 Hw2]].
    rewrite Hi2. cbn [bind]. apply station_names_total. exact Hw2. }
  destruct (lookup k_stations kvs) as [[| | | | |[|st l1]|]|];
    try discriminate; cbn [truthy nonempty bind]; try exact Hsecond.
  cbn [py_iter bind]. apply station_names_total. exact H1.
Qed.

Lemma stop_list_total (kvs : list (str * value)) :
  wf_stop_list (lookup k_passStopList kvs) = true ->
  exists names,
    (pass_stop_list <- dict_get (VDict kvs) k_passStopList VNone ;;
     let pass_list := py_or pass_stop_list (VDict []) in
     first <- dict_get pass_list k_stations (VList []) ;;
     stations <- (if truthy first then Ok first
                  else
                    second <- dict_get pass_list k_station (VList []) ;;
                    Ok (py_or second (VList []))) ;;
     items <- py_iter stations ;;
     station_names items) = Ok names.
Proof.
  cbn [dict_get bind]. intros H.
  destruct (lookup k_passStopList kvs) as [[| | | | | |stops]|];
    try discriminate; try (exists []; reflexivity).
  simpl in H. apply andb_prop in H. destruct H as [H1 H2].
  destruct stops as [|kv stops]; [exists []; reflexivity|].
  unfold py_or at 1. cbn [truthy nonempty]. cbv zeta.
  apply stations_total; assumption.
Qed.

Lemma collect_stations_total (legs : list value) :
  forallb wf_leg legs = true ->
  exists pool, collect_stations legs = Ok pool.
Proof.
  induction legs as [|sp rest IH]; intros H.
  - simpl. eauto.
  - simpl in H. apply andb_prop in H. destruct H as [Hsp Hrest].
    destruct (IH Hrest) as [later Hlater].
    destruct sp; try discriminate. simpl in Hsp.
    apply andb_prop in Hsp. destruct Hsp as [_ Hstops].
    destruct (stop_list_total kvs Hstops) as [here Hhere].
    cbn [collect_stations].
    bind_inv Hhere. rewrite Hstep. cbn [bind].
    cbn zeta in Hhere. bind_inv Hhere. rewrite Hstep0. cbn [bind].
    bind_inv Hhere. rewrite Hstep1. cbn [bind].
    bind_inv Hhere. rewrite Hstep2. cbn [bind].
    rewrite Hhere. cbn [bind]. rewrite Hlater. cbn [bind]. eauto.
Qed.

Lemma total_time_of_total (kvs : list (str * value)) :
  wf_info (lookup k_info kvs) = true ->
  exists tm, total_time_of (VDict kvs) = Ok tm.
Proof.
  unfold total_time_of. simpl. intros H.
  destruct (lookup k_info kvs) as [[| | | | | |info]|];
    try discriminate; simpl.
  - simpl in H.
    destruct (lookup k_totalTime info) as [[| |z| | | |]|];
      try discriminate; simpl; eauto.
    unfold py_or. simpl. destruct (z =? 0); simpl; eauto.
  - eauto.
Qed.

Lemma score_path_for_ride_total (path : value) (ride board drop : str) :
  wf_route path = true ->
  exists sc tm, score_path_for_ride path ride board drop = Ok (sc, tm).
Proof.
  destruct path; try discriminate. simpl. intros H.
  apply andb_prop in H. destruct H as [Hinfo Hlegs].
  unfold score_path_for_ride. rewrite !norm_of_text. cbn [bind].
  destruct (total_time_of_total kvs Hinfo) as [tm Htm].
  rewrite Htm. cbn [bind dict_get].
  destruct (optional_list_iter _ _ Hlegs) as [legs [Hi Hwf]].
  rewrite Hi. cbn [bind].
  destruct (collect_stations_total legs Hwf) as [pool Hpool].
  destruct (nonempty (norm_text ride)).
  - destruct (scan_legs_total (norm_text ride) legs Hwf 0) as [s Hs].
    rewrite Hs. cbn [bind]. rewrite Hpool. cbn [bind]. eauto.
  - cbn [bind]. rewrite Hpool. cbn [bind]. eauto.
Qed.

(** *** Ride matching and the time of a route *)

(** C1 (as the code has it): with a non-empty normalized ride hint, the
    score the scorer returns is 10 for every lane, on a subway or bus leg,
    that has a candidate name containing the hint (the first such name ends
    the scan of that lane's names only; the other lanes of the leg and the
    other legs are still scanned), plus the stop points. *)
Theorem ride_matching_per_lane (path : value) (ride board drop : str)
  (sc tm : Z) :
  nonempty (norm_text ride) = true ->
  score_path_for_ride path ride board drop = Ok (sc, tm) ->
  sc = ride_points (norm_text ride) (legs_of path)
       + stop_points (norm_text board) (norm_text drop) (station_pool path).
Proof.
  intros Hn H. apply score_path_for_ride_Ok in H.
  destruct H as [_ [_ ->]]. rewrite Hn. reflexivity.
Qed.

Lemma ride_matching_per_lane_witness :
  20 = ride_points (norm_text (lit "401")) (legs_of two_lane_route)
       + stop_points (norm_text []) (norm_text []) (station_pool two_lane_route).
Proof.
  apply (ride_matching_per_lane two_lane_route (lit "401") [] [] 20 30);
    reflexivity.
Defined.

(** C1, against one +10 per leg: a route with a single bus leg whose two
    lanes both carry "401" scores 20, where counting by leg gives 10. *)
Lemma ride_match_twice_in_one_leg :
  legs_of two_lane_route = [two_lane_leg]
  /\ score_path_for_ride two_lane_route (lit "401") [] [] = Ok (20, 30)
  /\ ride_points_per_leg (norm_text (lit "401")) (legs_of two_lane_route) = 10.
Proof. repeat split; reflexivity. Qed.

(** C2 (as the code has it): whenever the scorer returns, its totalTime is
    [int] of [route.info.totalTime] if that field is present and truthy, so
    the field itself if it is a non-zero integer; it is the sentinel 10^9 if
    [info] or the field is absent or the field is [null]; and at equal score
    a time below 10^9 replaces the sentinel and is never replaced by it. *)
Theorem scorer_total_time (path : value) (ride board drop : str)
  (sc tm : Z) :
  score_path_for_ride path ride board drop = Ok (sc, tm) ->
  (truthy (time_field path) = true -> py_int (time_field path) = Ok tm)
  /\ (forall n, time_field path = VInt n -> n <> 0 -> tm = n)
  /\ (time_field path = VNone -> tm = no_time)
  /\ (forall n s, n < no_time ->
        replaces s n s no_time = true /\ replaces s no_time s n = false).
Proof.
  intros H. apply score_path_for_ride_Ok in H. destruct H as [Ht _].
  assert (Hint : py_int (py_or (time_field path) (VInt no_time)) = Ok tm).
  { unfold total_time_of in Ht. unfold time_field.
    bind_inv Ht. bind_inv Ht. rewrite Hstep, Hstep0. exact Ht. }
  unfold py_or in Hint. repeat split.
  - intros Htrue. rewrite Htrue in Hint. exact Hint.
  - intros n Hn Hnz. rewrite Hn in Hint. simpl in Hint.
    apply Z.eqb_neq in Hnz. rewrite Hnz in Hint. simpl in Hint.
    injection Hint as <-. reflexivity.
  - intros Hnone. rewrite Hnone in Hint. simpl in Hint.
    injection Hint as <-. reflexivity.
  - apply replaces_iff. unfold beats. simpl. lia.
  - apply replaces_false_iff. unfold beats. simpl. lia.
Qed.

Lemma scorer_total_time_witness :
  score_path_for_ride (route_401 (text "30") "A") (lit "401") [] []
  = Ok (10, 30)
  /\ py_int (time_field (route_401 (text "30") "A")) = Ok 30.
Proof.
  split; [reflexivity|].
  apply (scorer_total_time (route_401 (text "30") "A") (lit "401") [] [] 10 30);
    reflexivity.
Defined.

(** C2, against the field being returned whenever it is an integer, and
    against the scorer never failing: a totalTime of 0 comes back as 10^9,
    and a totalTime of "abc" makes the scorer raise ValueError. *)
Lemma zero_time_and_text_time :
  time_field (walk_route (VInt 0) "A") = VInt 0
  /\ score_path_for_ride (walk_route (VInt 0) "A") (lit "401") [] []
     = Ok (0, 1000000000)
  /\ score_path_for_ride (walk_route (text "abc") "A") (lit "401") [] []
     = Raise ValueError.
Proof. repeat split; reflexivity. Qed.

(** ** Properties of the selector *)

Lemma scan_paths_scored
  (scorer : value -> str -> str -> str -> outcome (Z * Z))
  (ride board drop : str) (paths : list value) (scores : list (Z * Z)) :
  scored_by scorer ride board drop paths scores ->
  forall best,
    scan_paths scorer paths ride board drop best
    = Ok (track_all (combine scores paths) best).
Proof.
  unfold scored_by. induction 1 as [|p s paths scores Hp _ IH]; intros best.
  - reflexivity.
  - simpl. rewrite Hp. simpl. apply IH.
Qed.

(** Starting from [b], the loop ends on [b] when nothing later beats it, and
    otherwise on the first entry that beats [b] and everything before it and
    is beaten by nothing after it. *)
Lemma track_all_from (scored : list (Z * Z * value)) :
  forall b_s b_p,
    (track_all scored (Some (fst b_s, snd b_s, b_p))
     = Some (fst b_s, snd b_s, b_p)
     /\ forall y, In y scored -> ~ beats (fst y) b_s)
    \/ exists front e_s e_p back,
         scored = front ++ (e_s, e_p) :: back
         /\ track_all scored (Some (fst b_s, snd b_s, b_p))
            = Some (fst e_s, snd e_s, e_p)
         /\ beats e_s b_s
         /\ (forall x, In x front -> beats e_s (fst x))
         /\ (forall y, In y back -> ~ beats (fst y) e_s).
Proof.
  induction scored as [|[c_s c_p] rest IH]; intros b_s b_p.
  - left. split; [reflexivity | intros y []].
  - cbn [track_all track].
    destruct (replaces (fst c_s) (snd c_s) (fst b_s) (snd b_s)) eqn:Hr.
    + apply replaces_iff in Hr. rewrite <- !surjective_pairing in Hr.
      right. destruct (IH c_s c_p) as [[Hend Hnone] | Hlater].
      * exists [], c_s, c_p, rest. repeat split; auto.
        intros x [].
      * destruct Hlater as [front [e_s [e_p [back [Heq [Hend [Hb [Hf Hk]]]]]]]].
        exists ((c_s, c_p) :: front), e_s, e_p, back. repeat split; auto.
        -- rewrite Heq. reflexivity.
        -- apply (beats_trans _ c_s); assumption.
        -- intros x [<-|Hx]; [exact Hb | apply Hf; exact Hx].
    + apply replaces_false_iff in Hr. rewrite <- !surjective_pairing in Hr.
      destruct (IH b_s b_p) as [[Hend Hnone] | Hlater].
      * left. split; [exact Hend|].
        intros y [<-|Hy]; [exact Hr | apply Hnone; exact Hy].
      * right.
        destruct Hlater as [front [e_s [e_p [back [Heq [Hend [Hb [Hf Hk]]]]]]]].
        exists ((c_s, c_p) :: front), e_s, e_p, back. repeat split; auto.
        -- rewrite Heq. reflexivity.
        -- intros x [<-|Hx]; [|apply Hf; exact Hx].
           apply (beats_over _ b_s); assumption.
Qed.

(** From [None], the loop ends on the first entry that nothing beats. *)
Lemma track_all_first_best (scored : list (Z * Z * value)) :
  scored <> [] ->
  exists front e_s e_p back,
    scored = front ++ (e_s, e_p) :: back
    /\ track_all scored None = Some (fst e_s, snd e_s, e_p)
    /\ (forall x, In x front -> beats e_s (fst x))
    /\ (forall y, In y back -> ~ beats (fst y) e_s).
Proof.
  destruct scored as [|[c_s c_p] rest]; [intros H; contradiction|intros _].
  cbn [track_all track].
  destruct (track_all_from rest c_s c_p) as [[Hend Hnone] | Hlater].
  - exists [], c_s, c_p, rest. repeat split; auto. intros x [].
  - destruct Hlater as [front [e_s [e_p [back [Heq [Hend [Hb [Hf Hk]]]]]]]].
    exists ((c_s, c_p) :: front), e_s, e_p, back. repeat split; auto.
    + rewrite Heq. reflexivity.
    + intros x [<-|Hx]; [exact Hb | apply Hf; exact Hx].
Qed.

Lemma nth_error_combine {A B} (l : list A) (l' : list B) (n : nat) :
  nth_error (combine l l') n
  = match nth_error l n, nth_error l' n with
    | Some a, Some b => Some (a, b)
    | _, _ => None
    end.
Proof.
  revert l' n. induction l as [|a l IH]; intros l' n.
  - destruct n; reflexivity.
  - destruct l' as [|b l'].
    + destruct n; simpl; [reflexivity|]. destruct (nth_error l n); reflexivity.
    + destruct n; simpl; [reflexivity | apply IH].
Qed.

Lemma locate_found (data found : value) :
  path_lookup data = Ok found -> locate_paths data = Ok found.
Proof. unfold locate_paths. intros ->. reflexivity. Qed.

(** With hints present and every route scored, the selector answers from
    the loop's final [best]. *)
Lemma select_scored
  (scorer : value -> str -> str -> str -> outcome (Z * Z))
  (data p0 : value) (rest : list value) (ride board drop : str)
  (scores : list (Z * Z)) :
  path_lookup data = Ok (VList (p0 :: rest)) ->
  hints_present ride board drop = true ->
  scored_by scorer ride board drop (p0 :: rest) scores ->
  select_with scorer data ride board drop
  = Ok (match track_all (combine scores (p0 :: rest)) None with
        | Some (best_score, _, best_path) =>
            if best_score =? 0 then p0 else best_path
        | None => p0
        end).
Proof.
  intros Hfound Hhints Hscored. unfold select_with.
  rewrite (locate_found _ _ Hfound). cbn [bind truthy nonempty negb].
  unfold hints_present in Hhints. rewrite Hhints. cbn [negb py_iter bind].
  rewrite (scan_paths_scored _ _ _ _ _ _ Hscored). cbn [bind first_item].
  destruct (track_all (combine scores (p0 :: rest)) None)
    as [[[best_score best_time] best_path]|]; [|reflexivity].
  destruct (best_score =? 0); reflexivity.
Qed.

(** The route returned is the first one whose result nothing in the list
    beats, unless that result scores 0: then it is the head of the list. *)
Lemma select_first_best
  (scorer : value -> str -> str -> str -> outcome (Z * Z))
  (data p0 : value) (rest : list value) (ride board drop : str)
  (scores : list (Z * Z)) :
  path_lookup data = Ok (VList (p0 :: rest)) ->
  hints_present ride board drop = true ->
  scored_by scorer ride board drop (p0 :: rest) scores ->
  exists i s p,
    nth_error scores i = Some s
    /\ nth_error (p0 :: rest) i = Some p
    /\ (forall j t, (j < i)%nat -> nth_error scores j = Some t -> beats s t)
    /\ (forall j t, (i < j)%nat -> nth_error scores j = Some t -> ~ beats t s)
    /\ select_with scorer data ride board drop
       = Ok (if fst s =? 0 then p0 else p).
Proof.
  intros Hfound Hhints Hscored.
  rewrite (select_scored _ _ _ _ _ _ _ _ Hfound Hhints Hscored).
  pose proof (Forall2_length Hscored) as Hlen.
  assert (Hne : combine scores (p0 :: rest) <> []).
  { destruct scores as [|s scores]; [discriminate|]. discriminate. }
  destruct (track_all_first_best _ Hne)
    as [front [e_s [e_p [back [Heq [Hend [Hf Hk]]]]]]].
  rewrite Hend. cbn [fst snd].
  assert (Hat : forall j,
             nth_error (combine scores (p0 :: rest)) j
             = nth_error (front ++ (e_s, e_p) :: back) j).
  { intros j. rewrite Heq. reflexivity. }
  assert (Hpair : forall j t,
             nth_error scores j = Some t ->
             exists q, nth_error (combine scores (p0 :: rest)) j = Some (t, q)).
  { intros j t Ht. rewrite nth_error_combine, Ht.
    destruct (nth_error (p0 :: rest) j) as [q|] eqn:Hq; [eauto|].
    apply nth_error_None in Hq.
    assert (j < List.length scores)%nat
      by (apply nth_error_Some; rewrite Ht; discriminate).
    lia. }
  exists (List.length front), e_s, e_p.
  pose proof (Hat (List.length front)) as Hmid.
  rewrite nth_error_app2, Nat.sub_diag in Hmid by lia. cbn in Hmid.
  rewrite nth_error_combine in Hmid.
  destruct (nth_error scores (List.length front)) as [s|] eqn:Hs;
    [|discriminate].
  destruct (nth_error (p0 :: rest) (List.length front)) as [p|] eqn:Hp;
    [|discriminate].
  injection Hmid as -> ->.
  repeat split; auto.
  - intros j t Hj Ht. destruct (Hpair j t Ht) as [q Hq].
    rewrite Hat, nth_error_app1 in Hq by exact Hj.
    apply nth_error_In in Hq. apply (Hf _ Hq).
  - intros j t Hj Ht. destruct (Hpair j t Ht) as [q Hq].
    rewrite Hat, nth_error_app2 in Hq by lia.
    destruct (j - List.length front)%nat as [|k] eqn:Hk'; [lia|].
    cbn in Hq. apply nth_error_In in Hq. apply (Hk _ Hq).
Qed.

(** *** Scores of a whole list *)

Lemma max_score_bound (scores : list (Z * Z)) (m : Z) :
  max_score scores = Some m ->
  (forall s, In s scores -> fst s <= m)
  /\ exists s, In s scores /\ fst s = m.
Proof.
  destruct scores as [|s0 rest]; [discriminate|]. simpl.
  intros H. injection H as <-.
  assert (Hgen : forall l a,
             a <= fold_left Z.max l a
             /\ (forall x, In x l -> x <= fold_left Z.max l a)
             /\ (fold_left Z.max l a = a \/ In (fold_left Z.max l a) l)).
  { induction l as [|x l IH]; intros a; simpl.
    - repeat split; [lia | intros x [] | left; reflexivity].
    - destruct (IH (Z.max a x)) as [H1 [H2 H3]]. repeat split.
      + lia.
      + intros y [<-|Hy]; [lia | apply H2; exact Hy].
      + destruct H3 as [H3|H3]; [|right; right; exact H3].
        rewrite H3. destruct (Z.max_spec a x) as [[_ ->]|[_ ->]]; auto. }
  destruct (Hgen (map fst rest) (fst s0)) as [H1 [H2 H3]]. split.
  - intros s [<-|Hs]; [exact H1|]. apply H2. apply in_map. exact Hs.
  - destruct H3 as [H3|H3].
    + exists s0. split; [left; reflexivity | symmetry; exact H3].
    + apply in_map_iff in H3. destruct H3 as [s [Hs Hin]].
      exists s. split; [right; exact Hin | exact Hs].
Qed.

Lemma all_scored_scores (ride board drop : str) (paths : list value) :
  all_scored ride board drop paths ->
  exists scores, scored_by score_path_for_ride ride board drop paths scores.
Proof.
  unfold all_scored, scored_by. induction 1 as [|p paths [s Hs] _ [scores IH]].
  - exists []. constructor.
  - exists (s :: scores). constructor; assumption.
Qed.

(** When no route scores above 0, the head of the list is returned. *)
Lemma select_zero_scores
  (scorer : value -> str -> str -> str -> outcome (Z * Z))
  (data p0 : value) (rest : list value) (ride board drop : str)
  (scores : list (Z * Z)) :
  path_lookup data = Ok (VList (p0 :: rest)) ->
  hints_present ride board drop = true ->
  scored_by scorer ride board drop (p0 :: rest) scores ->
  max_score scores = Some 0 ->
  select_with scorer data ride board drop = Ok p0.
Proof.
  intros Hfound Hhints Hscored Hmax.
  destruct (select_first_best _ _ _ _ _ _ _ _ Hfound Hhints Hscored)
    as [i [s [p [Hs [Hp [Hbefore [Hafter ->]]]]]]].
  destruct (max_score_bound _ _ Hmax) as [Hub [top [Htop Hzero]]].
  assert (Hle : fst s <= 0) by (apply Hub; eapply nth_error_In; exact Hs).
  assert (Hge : 0 <= fst s).
  { apply In_nth_error in Htop. destruct Htop as [j Hj]. rewrite <- Hzero.
    destruct (Nat.lt_trichotomy j i) as [Hlt|[->|Hgt]].
    - apply beats_score. apply (Hbefore j); assumption.
    - rewrite Hs in Hj. injection Hj as ->. lia.
    - apply not_beats_score. apply (Hafter j); assumption. }
  replace (fst s) with 0 by lia. reflexivity.
Qed.

(** Without hints the scorer plays no part. *)
Lemma select_without_hints
  (scorer : value -> str -> str -> str -> outcome (Z * Z))
  (data found : value) (ride board drop : str) :
  path_lookup data = Ok found ->
  truthy found = true ->
  hints_present ride board drop = false ->
  select_with scorer data ride board drop = first_item found.
Proof.
  intros Hfound Htrue Hnone. unfold select_with.
  rewrite (locate_found _ _ Hfound). cbn [bind]. rewrite Htrue.
  unfold hints_present in Hnone. rewrite Hnone. reflexivity.
Qed.

Lemma all_scored_wf (ride board drop : str) (paths : list value) :
  forallb wf_route paths = true -> all_scored ride board drop paths.
Proof.
  unfold all_scored. rewrite forallb_forall, Forall_forall.
  intros H p Hp.
  destruct (score_path_for_ride_total p ride board drop (H p Hp))
    as [sc [tm Hs]].
  exists (sc, tm). exact Hs.
Qed.

(** With hints that normalize to nothing, a returned score is 0. *)
Lemma blank_hints_score (path : value) (ride board drop : str) (s : Z * Z) :
  norm_text ride = [] -> norm_text board = [] -> norm_text drop = [] ->
  score_path_for_ride path ride board drop = Ok s ->
  fst s = 0.
Proof.
  intros Hr Hb Hd H. destruct s as [sc tm].
  apply score_path_for_ride_Ok in H. destruct H as [_ [_ ->]].
  rewrite Hr, Hb, Hd. reflexivity.
Qed.

(** *** Which errors can leave the selector *)

Lemma not_http_Ok {A} (a : A) : not_http (Ok a).
Proof. intros c d. discriminate. Qed.

Lemma not_http_Unmodelled {A} : not_http (@Unmodelled A).
Proof. intros c d. discriminate. Qed.

Lemma not_http_bind {A B} (c : outcome A) (k : A -> outcome B) :
  not_http c -> (forall a, not_http (k a)) -> not_http (bind c k).
Proof.
  intros Hc Hk. destruct c as [a|e|]; simpl.
  - apply Hk.
  - intros sc d H. apply (Hc sc d). injection H as ->. reflexivity.
  - apply not_http_Unmodelled.
Qed.

Lemma not_http_dict_get (d : value) (k : str) (default : value) :
  not_http (dict_get d k default).
Proof. destruct d; intros c x; discriminate. Qed.

Lemma not_http_py_iter (v : value) : not_http (py_iter v).
Proof. destruct v; intros c x; discriminate. Qed.

Lemma not_http_first_item (v : value) : not_http (first_item v).
Proof.
  destruct v as [| | | |[|c s]|[|x l]|]; intros c' x'; discriminate.
Qed.

Lemma not_http_py_str (v : value) : not_http (py_str v).
Proof.
  destruct v as [|[|]|z| | | |]; simpl; try (intros c x; discriminate).
  destruct (_ <=? _)%nat; intros c x; discriminate.
Qed.

Lemma not_http_py_int (v : value) : not_http (py_int v).
Proof.
  destruct v as [| | |[| |]| | |]; simpl; try (intros c x; discriminate).
  unfold int_of_text. destruct (_ && _); [|apply not_http_Unmodelled].
  destruct (parse_signed _); intros c x; discriminate.
Qed.

Lemma not_http_norm (v : value) : not_http (norm v).
Proof.
  unfold norm. destruct (negb (truthy v)); [apply not_http_Ok|].
  destruct v; intros c x; discriminate.
Qed.

Create HintDb plain.
#[local] Hint Resolve not_http_Ok not_http_Unmodelled not_http_dict_get
  not_http_py_iter not_http_first_item not_http_py_str not_http_py_int
  not_http_norm : plain.

(** Reduces a goal [not_http c] along the shape of [c]. *)
Ltac plain :=
  repeat match goal with
    | |- not_http (bind _ _) => apply not_http_bind; [|intros ?]
    | |- not_http (if ?b then _ else _) => destruct b
    | |- forall _, not_http _ => intros ?
    | |- not_http _ => solve [auto with plain]
    end.

Lemma not_http_total_time_of (path : value) : not_http (total_time_of path).
Proof. unfold total_time_of. plain. Qed.

Lemma not_http_candidates_of (ttype lane : value) :
  not_http (candidates_of ttype lane).
Proof. unfold candidates_of. plain. Qed.

Lemma not_http_scan_candidates (ride_n : str) (candidates : list value) :
  forall score, not_http (scan_candidates ride_n candidates score).
Proof.
  induction candidates as [|cand rest IH]; intros score; simpl; plain;
    auto.
Qed.

Lemma not_http_scan_lanes (ride_n : str) (ttype : value)
  (lanes : list value) :
  forall score, not_http (scan_lanes ride_n ttype lanes score).
Proof.
  induction lanes as [|lane rest IH]; intros score; simpl; plain;
    auto using not_http_candidates_of, not_http_scan_candidates.
Qed.

Lemma not_http_scan_legs (ride_n : str) (legs : list value) :
  forall score, not_http (scan_legs ride_n legs score).
Proof.
  induction legs as [|sp rest IH]; intros score; simpl; plain;
    auto using not_http_scan_lanes.
Qed.

Lemma not_http_station_names (stations : list value) :
  not_http (station_names stations).
Proof.
  induction stations as [|st rest IH]; simpl; plain; auto.
Qed.

Lemma not_http_collect_stations (legs : list value) :
  not_http (collect_stations legs).
Proof.
  induction legs as [|sp rest IH]; simpl; plain;
    auto using not_http_station_names.
Qed.

Lemma not_http_score_path_for_ride (path : value) (ride board drop : str) :
  not_http (score_path_for_ride path ride board drop).
Proof.
  unfold score_path_for_ride. plain;
    auto using not_http_total_time_of, not_http_scan_legs,
      not_http_collect_stations.
Qed.

Lemma not_http_scan_paths (paths : list value) (ride board drop : str) :
  forall best,
    not_http (scan_paths score_path_for_ride paths ride board drop best).
Proof.
  induction paths as [|p rest IH]; intros best; simpl; plain;
    auto using not_http_score_path_for_ride.
Qed.

Lemma path_lookup_cases (data : value) :
  (exists found, path_lookup data = Ok found)
  \/ path_lookup data = Raise KeyError
  \/ path_lookup data = Raise TypeError.
Proof.
  unfold path_lookup, subscript.
  destruct data; simpl; auto.
  destruct (lookup k_result kvs) as [result|]; simpl; auto.
  destruct result; simpl; auto.
  destruct (lookup k_path kvs0); eauto.
Qed.

Lemma locate_raises (data : value) (e : exn) :
  path_lookup data = Raise e ->
  locate_paths data = Raise (HTTPException 500 PathMissing).
Proof.
  intros H. unfold locate_paths.
  destruct (path_lookup_cases data) as [[found Hf]|[Hk|Ht]].
  - rewrite Hf in H. discriminate.
  - rewrite Hk. reflexivity.
  - rewrite Ht. reflexivity.
Qed.

(** Once a non-empty value is located, whatever goes wrong later is not an
    [HTTPException]. *)
Lemma select_after_locate (data found : value) (ride board drop : str) :
  path_lookup data = Ok found ->
  truthy found = true ->
  not_http (select_path_for_ride data ride board drop).
Proof.
  intros Hfound Htrue. unfold select_path_for_ride, select_with.
  rewrite (locate_found _ _ Hfound). cbn [bind]. rewrite Htrue.
  cbn [negb]. plain; auto using not_http_scan_paths.
  destruct a0 as [[[best_score best_time] best_path]|]; plain.
Qed.

(** ** What the selector and [get_map_obj] return *)

(** C3: with hints present and every route scored, tracking is strict: the
    first route becomes [best] unconditionally; a later route replaces
    [best] exactly when its score is strictly greater, or equal with a
    strictly smaller totalTime; so the route the loop ends on is the first
    one that no route of the list beats, and of two routes with equal score
    and equal totalTime the earlier-listed one is returned. *)
Theorem best_tracking_is_strict (data p0 : value) (rest : list value)
  (ride board drop : str) (scores : list (Z * Z)) :
  path_lookup data = Ok (VList (p0 :: rest)) ->
  hints_present ride board drop = true ->
  scored_by score_path_for_ride ride board drop (p0 :: rest) scores ->
  (forall sc tm p, track None sc tm p = Some (sc, tm, p))
  /\ (forall b_sc b_tt b sc tm p,
        (replaces sc tm b_sc b_tt = true
         <-> sc > b_sc \/ (sc = b_sc /\ tm < b_tt))
        /\ track (Some (b_sc, b_tt, b)) sc tm p
           = Some (if replaces sc tm b_sc b_tt
                   then (sc, tm, p) else (b_sc, b_tt, b)))
  /\ (exists i s p,
        nth_error scores i = Some s
        /\ nth_error (p0 :: rest) i = Some p
        /\ (forall j t,
              (j < i)%nat -> nth_error scores j = Some t -> beats s t)
        /\ (forall j t,
              (i < j)%nat -> nth_error scores j = Some t -> ~ beats t s)
        /\ select_path_for_ride data ride board drop
           = Ok (if fst s =? 0 then p0 else p))
  /\ (forall p1 t,
        rest = [p1] -> scores = [t; t] ->
        select_path_for_ride data ride board drop = Ok p0).
Proof.
  intros Hfound Hhints Hscored.
  pose proof (select_first_best _ _ _ _ _ _ _ _ Hfound Hhints Hscored)
    as Hbest.
  split; [reflexivity|]. split.
  - intros b_sc b_tt b sc tm p. split.
    + apply replaces_iff.
    + simpl. destruct (replaces sc tm b_sc b_tt); reflexivity.
  - split; [exact Hbest|].
    intros p1 t -> ->.
    destruct Hbest as [i [s [p [Hs [Hp [Hbefore [_ Hsel]]]]]]].
    unfold select_path_for_ride. rewrite Hsel.
    destruct i as [|[|i]].
    + injection Hp as <-. destruct (fst s =? 0); reflexivity.
    + injection Hs as <-. exfalso. apply (beats_irrefl t).
      apply (Hbefore 0%nat); [lia | reflexivity].
    + destruct i; discriminate.
Qed.

Lemma best_tracking_is_strict_witness :
  select_path_for_ride
    (payload [route_401 (VInt 30) "A"; route_401 (VInt 30) "B"])
    (lit "401") [] []
  = Ok (route_401 (VInt 30) "A").
Proof.
  destruct (best_tracking_is_strict
              (payload [route_401 (VInt 30) "A"; route_401 (VInt 30) "B"])
              (route_401 (VInt 30) "A") [route_401 (VInt 30) "B"]
              (lit "401") [] [] [(10, 30); (10, 30)])
    as [_ [_ [_ Htie]]].
  - reflexivity.
  - reflexivity.
  - constructor; [reflexivity|]. constructor; [reflexivity|]. constructor.
  - apply (Htie _ _ eq_refl eq_refl).
Defined.

(** C4: for a non-empty route list and hints of which one at least is
    non-empty, if the highest score over all routes is exactly 0 the
    selector returns the first route of the list, as it does when called
    with all hints empty. *)
Theorem zero_score_fallback (data p0 : value) (rest : list value)
  (ride board drop : str) (scores : list (Z * Z)) :
  path_lookup data = Ok (VList (p0 :: rest)) ->
  hints_present ride board drop = true ->
  scored_by score_path_for_ride ride board drop (p0 :: rest) scores ->
  max_score scores = Some 0 ->
  select_path_for_ride data ride board drop = Ok p0
  /\ select_path_for_ride data [] [] [] = Ok p0.
Proof.
  intros Hfound Hhints Hscored Hmax. split.
  - apply (select_zero_scores _ _ _ _ _ _ _ _ Hfound Hhints Hscored Hmax).
  - unfold select_path_for_ride.
    rewrite (select_without_hints _ _ _ _ _ _ Hfound); reflexivity.
Qed.

Lemma zero_score_fallback_witness :
  select_path_for_ride
    (payload [walk_route (VInt 40) "A"; walk_route (VInt 30) "B"])
    (lit "401") [] []
  = Ok (walk_route (VInt 40) "A").
Proof.
  apply (zero_score_fallback
           (payload [walk_route (VInt 40) "A"; walk_route (VInt 30) "B"])
           (walk_route (VInt 40) "A") [walk_route (VInt 30) "B"]
           (lit "401") [] [] [(0, 40); (0, 30)]).
  - reflexivity.
  - reflexivity.
  - constructor; [reflexivity|]. constructor; [reflexivity|]. constructor.
  - reflexivity.
Defined.

(** C5 (as the code has it): the selector raises the 500 "path missing"
    HTTPException exactly when [data["result"]["path"]] cannot be read, and
    the 404 "no path" HTTPException exactly when the value read is falsy (an
    empty list, and equally [null], 0 or an empty text or dict); when the
    value read is a non-empty list it returns a route of that list provided
    the hints are all empty or the scorer returns on every route. *)
Theorem selector_outcomes (data : value) (ride board drop : str) :
  (select_path_for_ride data ride board drop
   = Raise (HTTPException 500 PathMissing)
   <-> exists e, path_lookup data = Raise e)
  /\ (select_path_for_ride data ride board drop
      = Raise (HTTPException 404 NoPathFound)
      <-> exists found, path_lookup data = Ok found /\ truthy found = false)
  /\ (forall p0 rest,
        path_lookup data = Ok (VList (p0 :: rest)) ->
        hints_present ride board drop = false
        \/ all_scored ride board drop (p0 :: rest) ->
        exists p,
          In p (p0 :: rest)
          /\ select_path_for_ride data ride board drop = Ok p).
Proof.
  assert (Hfalsy : forall found,
             path_lookup data = Ok found -> truthy found = false ->
             select_path_for_ride data ride board drop
             = Raise (HTTPException 404 NoPathFound)).
  { intros found Hfound Hfalse. unfold select_path_for_ride, select_with.
    rewrite (locate_found _ _ Hfound). cbn [bind]. rewrite Hfalse.
    reflexivity. }
  assert (Hraise : forall e,
             path_lookup data = Raise e ->
             select_path_for_ride data ride board drop
             = Raise (HTTPException 500 PathMissing)).
  { intros e He. unfold select_path_for_ride, select_with.
    rewrite (locate_raises _ _ He). reflexivity. }
  split; [|split].
  - split.
    + intros H.
      destruct (path_lookup_cases data) as [[found Hfound]|[Hk|Ht]]; eauto.
      destruct (truthy found) eqn:Htruthy.
      * exfalso.
        apply (select_after_locate _ _ ride board drop Hfound Htruthy
                 500 PathMissing).
        exact H.
      * rewrite (Hfalsy _ Hfound Htruthy) in H. discriminate.
    + intros [e He]. apply (Hraise e He).
  - split.
    + intros H.
      destruct (path_lookup_cases data) as [[found Hfound]|[Hk|Ht]].
      * destruct (truthy found) eqn:Htruthy; eauto.
        exfalso.
        apply (select_after_locate _ _ ride board drop Hfound Htruthy
                 404 NoPathFound).
        exact H.
      * rewrite (Hraise _ Hk) in H. discriminate.
      * rewrite (Hraise _ Ht) in H. discriminate.
    + intros [found [Hfound Hfalse]]. apply (Hfalsy _ Hfound Hfalse).
  - intros p0 rest Hfound [Hnone|Hall].
    + exists p0. split; [left; reflexivity|].
      unfold select_path_for_ride.
      rewrite (select_without_hints _ _ _ _ _ _ Hfound); auto.
    + destruct (hints_present ride board drop) eqn:Hhints.
      * destruct (all_scored_scores _ _ _ _ Hall) as [scores Hscored].
        destruct (select_first_best _ _ _ _ _ _ _ _ Hfound Hhints Hscored)
          as [i [s [p [_ [Hp [_ [_ Hsel]]]]]]].
        exists (if fst s =? 0 then p0 else p). split; [|exact Hsel].
        destruct (fst s =? 0); [left; reflexivity|].
        apply (nth_error_In _ _ Hp).
      * exists p0. split; [left; reflexivity|].
        unfold select_path_for_ride.
        rewrite (select_without_hints _ _ _ _ _ _ Hfound); auto.
Qed.

Lemma selector_outcomes_witness :
  select_path_for_ride (payload []) (lit "401") [] []
  = Raise (HTTPException 404 NoPathFound).
Proof.
  destruct (selector_outcomes (payload []) (lit "401") [] [])
    as [_ [[_ Hempty] _]].
  apply Hempty. exists (VList []). split; reflexivity.
Defined.

(** C5, against a route being returned in all other cases: the list holds
    one route, whose totalTime is "abc"; with a ride hint the selector ends
    in the scorer's ValueError. *)
Lemma selector_passes_scorer_error :
  path_lookup (payload [walk_route (text "abc") "A"])
  = Ok (VList [walk_route (text "abc") "A"])
  /\ select_path_for_ride (payload [walk_route (text "abc") "A"])
       (lit "401") [] []
     = Raise ValueError.
Proof. split; reflexivity. Qed.

(** C6: for a non-empty route list and three empty hints the selector
    returns the first route unchanged, whatever the scorer is: no route is
    scored. *)
Theorem empty_hints_shortcut
  (scorer : value -> str -> str -> str -> outcome (Z * Z))
  (data p0 : value) (rest : list value) :
  path_lookup data = Ok (VList (p0 :: rest)) ->
  select_with scorer data [] [] [] = Ok p0
  /\ select_path_for_ride data [] [] [] = Ok p0.
Proof.
  intros Hfound. unfold select_path_for_ride.
  rewrite !(select_without_hints _ _ _ _ _ _ Hfound); auto.
Qed.

Lemma empty_hints_shortcut_witness :
  select_with (fun _ _ _ _ => Raise ValueError)
    (payload [walk_route (text "abc") "A"; route_401 (VInt 30) "B"]) [] [] []
  = Ok (walk_route (text "abc") "A").
Proof.
  apply (empty_hints_shortcut (fun _ _ _ _ => Raise ValueError)
           (payload [walk_route (text "abc") "A"; route_401 (VInt 30) "B"])
           (walk_route (text "abc") "A") [route_401 (VInt 30) "B"]).
  reflexivity.
Defined.

(** C9 (as the code has it): for a non-empty route list on every route of
    which the scorer returns, if the three hints normalize to the empty
    text while one of them is a non-empty raw text, the shortcut is not
    taken, every route scores 0, and the selector returns the first route
    of the list. *)
Theorem blank_hints_fall_back (data p0 : value) (rest : list value)
  (ride board drop : str) :
  path_lookup data = Ok (VList (p0 :: rest)) ->
  hints_present ride board drop = true ->
  norm_text ride = [] -> norm_text board = [] -> norm_text drop = [] ->
  all_scored ride board drop (p0 :: rest) ->
  (exists scores,
      scored_by score_path_for_ride ride board drop (p0 :: rest) scores
      /\ Forall (fun s => fst s = 0) scores)
  /\ select_path_for_ride data ride board drop = Ok p0.
Proof.
  intros Hfound Hhints Hr Hb Hd Hall.
  destruct (all_scored_scores _ _ _ _ Hall) as [scores Hscored].
  assert (Hzero : Forall (fun s => fst s = 0) scores).
  { clear Hfound. unfold scored_by in Hscored.
    induction Hscored as [|p s paths scores Hp _ IH]; constructor.
    - apply (blank_hints_score p ride board drop s Hr Hb Hd Hp).
    - apply IH. inversion Hall. assumption. }
  split; [exists scores; split; assumption|].
  destruct (select_first_best _ _ _ _ _ _ _ _ Hfound Hhints Hscored)
    as [i [s [p [Hs [_ [_ [_ Hsel]]]]]]].
  unfold select_path_for_ride. rewrite Hsel.
  rewrite Forall_forall in Hzero.
  rewrite (Hzero s (nth_error_In _ _ Hs)). reflexivity.
Qed.

Lemma blank_hints_fall_back_witness :
  select_path_for_ride
    (payload [route_401 (VInt 40) "A"; route_401 (VInt 30) "B"])
    (lit " ") (lit "()") []
  = Ok (route_401 (VInt 40) "A").
Proof.
  apply (blank_hints_fall_back
           (payload [route_401 (VInt 40) "A"; route_401 (VInt 30) "B"])
           (route_401 (VInt 40) "A") [route_401 (VInt 30) "B"]
           (lit " ") (lit "()") []); try reflexivity.
  apply all_scored_wf. reflexivity.
Defined.

(** C9, against every non-empty route list: the hint " " normalizes to the
    empty text, and on a list whose only route has the totalTime "abc" the
    selector ends in the scorer's ValueError. *)
Lemma blank_hint_meets_scorer_error :
  norm_text (lit " ") = []
  /\ select_path_for_ride (payload [walk_route (text "abc") "A"])
       (lit " ") [] []
     = Raise ValueError.
Proof. split; reflexivity. Qed.

(** C10: once the selector has returned a route whose [info] is a dict (or
    is missing), [get_map_obj] raises the 500 "mapObj missing"
    HTTPException when [info] has no [mapObj] and for every falsy [mapObj],
    the empty text among them, and otherwise returns the [mapObj] value
    unchanged. *)
Theorem map_obj_extraction (data path : value) (ride board drop : str)
  (info : list (str * value)) :
  select_path_for_ride data ride board drop = Ok path ->
  dict_get path k_info (VDict []) = Ok (VDict info) ->
  get_map_obj (Ok data) ride board drop
  = match lookup k_mapObj info with
    | Some map_obj =>
        if truthy map_obj then Ok map_obj
        else Raise (HTTPException 500 MapObjMissing)
    | None => Raise (HTTPException 500 MapObjMissing)
    end
  /\ (lookup k_mapObj info = Some (VStr []) ->
      get_map_obj (Ok data) ride board drop
      = Raise (HTTPException 500 MapObjMissing)).
Proof.
  intros Hsel Hinfo.
  assert (Hget : get_map_obj (Ok data) ride board drop
                 = match lookup k_mapObj info with
                   | Some map_obj =>
                       if truthy map_obj then Ok map_obj
                       else Raise (HTTPException 500 MapObjMissing)
                   | None => Raise (HTTPException 500 MapObjMissing)
                   end).
  { unfold get_map_obj. cbn [bind]. rewrite Hsel. cbn [bind].
    rewrite Hinfo. cbn [bind dict_get].
    destruct (lookup k_mapObj info) as [map_obj|]; [|reflexivity].
    destruct (truthy map_obj); reflexivity. }
  split; [exact Hget|].
  intros Hempty. rewrite Hget, Hempty. reflexivity.
Qed.

Lemma map_obj_extraction_witness :
  get_map_obj (Ok (payload [route_401 (VInt 30) "A"])) (lit "401") [] []
  = Ok (text "A")
  /\ get_map_obj (Ok (payload [route_401 (VInt 30) ""])) (lit "401") [] []
     = Raise (HTTPException 500 MapObjMissing).
Proof.
  split.
  - destruct (map_obj_extraction
                (payload [route_401 (VInt 30) "A"])
                (route_401 (VInt 30) "A") (lit "401") [] []
                [(k_totalTime, VInt 30); (k_mapObj, text "A")]
                eq_refl eq_refl) as [Hget _].
    exact Hget.
  - destruct (map_obj_extraction
                (payload [route_401 (VInt 30) ""])
                (route_401 (VInt 30) "") (lit "401") [] []
                [(k_totalTime, VInt 30); (k_mapObj, text "")]
                eq_refl eq_refl) as [_ Hempty].
    apply Hempty. reflexivity.
Defined.

(** ** Further properties *)

(** *** Text *)

Lemma starts_with_spec (prefix s : str) :
  starts_with prefix s = true <-> exists suf, s = prefix ++ suf.
Proof.
  revert s. induction prefix as [|p prefix IH]; intros s.
  - simpl. split; [intros _; exists s; reflexivity | reflexivity].
  - destruct s as [|c s]; simpl.
    + split; [discriminate | intros [suf H]; discriminate].
    + rewrite andb_true_iff, N.eqb_eq, IH. split.
      * intros [-> [suf ->]]. exists suf. reflexivity.
      * intros [suf H]. injection H as -> ->. split; [reflexivity|].
        exists suf. reflexivity.
Qed.

(** [needle in hay] holds exactly when [hay] carries [needle] as a
    contiguous part. *)
Lemma contains_spec (needle hay : str) :
  contains needle hay = true <-> exists pre suf, hay = pre ++ needle ++ suf.
Proof.
  induction hay as [|c hay IH].
  - cbn [contains]. rewrite orb_false_r, starts_with_spec. split.
    + intros [suf H]. exists [], suf. exact H.
    + intros [pre [suf H]]. destruct pre; [|discriminate].
      exists suf. exact H.
  - cbn [contains]. rewrite orb_true_iff, starts_with_spec, IH. split.
    + intros [[suf H]|[pre [suf H]]].
      * exists [], suf. exact H.
      * exists (c :: pre), suf. rewrite H. reflexivity.
    + intros [pre [suf H]]. destruct pre as [|c' pre].
      * left. exists suf. exact H.
      * right. injection H as _ H. exists pre, suf. exact H.
Qed.

Lemma contains_trans (a b c : str) :
  contains a b = true -> contains b c = true -> contains a c = true.
Proof.
  rewrite !contains_spec. intros [p1 [s1 ->]] [p2 [s2 ->]].
  exists (p2 ++ p1), (s1 ++ s2). rewrite !app_assoc. reflexivity.
Qed.

Lemma blanks_not_kept (s : str) :
  forallb isspace s = true -> plain_spaces_only s = true ->
  filter kept s = [].
Proof.
  induction s as [|c s IH]; simpl; intros Hb Hp; [reflexivity|].
  apply andb_prop in Hb. destruct Hb as [Hc Hb].
  apply andb_prop in Hp. destruct Hp as [Hc' Hp].
  rewrite Hc in Hc'. simpl in Hc'. unfold kept. rewrite Hc'.
  simpl. rewrite andb_false_r. simpl. apply IH; assumption.
Qed.

Lemma plain_spaces_only_app (a b : str) :
  plain_spaces_only (a ++ b) = plain_spaces_only a && plain_spaces_only b.
Proof. unfold plain_spaces_only. apply forallb_app. Qed.

Lemma norm_text_plain (x : str) :
  plain_spaces_only x = true -> norm_text x = filter kept x.
Proof.
  intros Hp. rewrite norm_text_filter.
  destruct (strip_split x) as [pre [suf [Heq [Hpre Hsuf]]]].
  rewrite Heq in Hp. rewrite !plain_spaces_only_app in Hp.
  apply andb_prop in Hp. destruct Hp as [Hp1 Hp2].
  apply andb_prop in Hp2. destruct Hp2 as [_ Hp3].
  rewrite Heq at 2. rewrite !filter_app.
  rewrite (blanks_not_kept pre Hpre Hp1), (blanks_not_kept suf Hsuf Hp3).
  rewrite app_nil_r. reflexivity.
Qed.

(** X1: on text whose only blanks are plain spaces, [norm] is the deletion
    of ["("], [")"], [" "] and ["번"] wherever they stand, so it goes
    through concatenation: [norm (a + b) = norm a + norm b]. *)
Theorem norm_of_plain_text (a b : str) :
  plain_spaces_only a = true ->
  plain_spaces_only b = true ->
  norm (VStr a) = Ok (filter kept a)
  /\ norm (VStr (a ++ b)) = Ok (norm_text a ++ norm_text b).
Proof.
  intros Ha Hb. rewrite !norm_of_text. split.
  - rewrite (norm_text_plain a Ha). reflexivity.
  - rewrite !norm_text_plain; try assumption.
    + rewrite filter_app. reflexivity.
    + rewrite plain_spaces_only_app, Ha, Hb. reflexivity.
Qed.

Lemma norm_of_plain_text_witness :
  norm (VStr (lit "(401) " ++ lit "Gangnam st."))
  = Ok (norm_text (lit "(401) ") ++ norm_text (lit "Gangnam st.")).
Proof.
  apply (norm_of_plain_text (lit "(401) ") (lit "Gangnam st."));
    reflexivity.
Defined.

(** *** The scorer *)

Lemma stop_points_range (board_n drop_n : str) (pool : list str) :
  exists k, stop_points board_n drop_n pool = 5 * k /\ 0 <= k <= 2.
Proof.
  unfold stop_points.
  destruct (nonempty board_n && existsb (contains board_n) pool);
    destruct (nonempty drop_n && existsb (contains drop_n) pool).
  - exists 2. lia.
  - exists 1. lia.
  - exists 1. lia.
  - exists 0. lia.
Qed.

(** X2: a score the scorer returns is a non-negative multiple of 5, and at
    most 10 when the ride hint normalizes to the empty text. *)
Theorem score_range (path : value) (ride board drop : str) (sc tm : Z) :
  score_path_for_ride path ride board drop = Ok (sc, tm) ->
  0 <= sc
  /\ (exists k, sc = 5 * k)
  /\ (norm_text ride = [] -> sc <= 10).
Proof.
  intros H. apply score_path_for_ride_Ok in H. destruct H as [_ [_ ->]].
  destruct (stop_points_range (norm_text board) (norm_text drop)
              (station_pool path)) as [k [-> Hk]].
  repeat split.
  - destruct (nonempty (norm_text ride)); unfold ride_points; lia.
  - destruct (nonempty (norm_text ride)); unfold ride_points.
    + exists (2 * Z.of_nat
                    (list_sum
                       (map (matching_lanes (norm_text ride))
                          (legs_of path))) + k). lia.
    + exists k. lia.
  - intros ->. simpl. lia.
Qed.

Lemma score_range_witness :
  0 <= 20 /\ (exists k, 20 = 5 * k).
Proof.
  destruct (score_range two_lane_route (lit "401") [] [] 20 30 eq_refl)
    as [Hpos [Hmul _]].
  split; assumption.
Defined.




Lemma cand_matches_shorter (short long : str) (cand : value) :
  contains short long = true ->
  cand_matches long cand = true -> cand_matches short cand = true.
Proof.
  intros Hc. unfold cand_matches. destruct (py_str cand); auto.
  intros H. apply (contains_trans _ _ _ Hc H).
Qed.

Lemma lane_matches_shorter (short long : str) (ttype lane : value) :
  contains short long = true ->
  lane_matches long ttype lane = true -> lane_matches short ttype lane = true.
Proof.
  intros Hc. unfold lane_matches. destruct (candidates_of ttype lane); auto.
  rewrite !existsb_exists. intros [cand [Hin Hm]]. exists cand.
  split; [exact Hin | apply (cand_matches_shorter _ _ _ Hc Hm)].
Qed.

Lemma filter_length_le {A} (f g : A -> bool) (l : list A) :
  (forall x, f x = true -> g x = true) ->
  (List.length (filter f l) <= List.length (filter g l))%nat.
Proof.
  intros Hfg. induction l as [|x l IH]; simpl; [lia|].
  destruct (f x) eqn:Hf.
  - rewrite (Hfg x Hf). simpl. lia.
  - destruct (g x); simpl; lia.
Qed.

Lemma ride_points_shorter (short long : str) (legs : list value) :
  contains short long = true ->
  ride_points long legs <= ride_points short legs.
Proof.
  intros Hc. unfold ride_points.
  assert (H : (list_sum (map (matching_lanes long) legs)
               <= list_sum (map (matching_lanes short) legs))%nat).
  { induction legs as [|sp legs IH]; simpl; [lia|].
    assert (matching_lanes long sp <= matching_lanes short sp)%nat.
    { unfold matching_lanes. destruct (rides (leg_type sp)); [|lia].
      apply filter_length_le. intros lane.
      apply (lane_matches_shorter _ _ _ _ Hc). }
    lia. }
  lia.
Qed.

(** X5: matching is by containment, so a ride hint never scores less than
    a longer hint it is part of: if the normalized [ride] is non-empty and
    is a contiguous part of the normalized [ride'], every lane that
    matches [ride'] matches [ride], and the score with [ride] is at least
    the score with [ride']. *)
Theorem shorter_ride_hint_scores_more (path : value)
  (ride ride' board drop : str) (sc sc' tm tm' : Z) :
  nonempty (norm_text ride) = true ->
  contains (norm_text ride) (norm_text ride') = true ->
  score_path_for_ride path ride board drop = Ok (sc, tm) ->
  score_path_for_ride path ride' board drop = Ok (sc', tm') ->
  sc' <= sc.
Proof.
  intros Hn Hc H H'.
  apply score_path_for_ride_Ok in H. destruct H as [_ [_ ->]].
  apply score_path_for_ride_Ok in H'. destruct H' as [_ [_ ->]].
  rewrite Hn.
  assert (Hn' : nonempty (norm_text ride') = true).
  { apply contains_spec in Hc. destruct Hc as [pre [suf ->]].
    destruct (norm_text ride); [discriminate|].
    destruct pre; reflexivity. }
  rewrite Hn'.
  pose proof (ride_points_shorter _ _ (legs_of path) Hc). lia.
Qed.

Lemma shorter_ride_hint_scores_more_witness : 10 <= 20.
Proof.
  apply (shorter_ride_hint_scores_more two_lane_route
           (lit "401") (lit "4011") [] [] 20 10 30 30); reflexivity.
Defined.



(** *** The selector and the handle *)

Lemma score_by_normal_forms (path : value)
  (ride board drop ride' board' drop' : str) :
  norm_text ride = norm_text ride' ->
  norm_text board = norm_text board' ->
  norm_text drop = norm_text drop' ->
  score_path_for_ride path ride board drop
  = score_path_for_ride path ride' board' drop'.
Proof.
  intros Hr Hb Hd. unfold score_path_for_ride.
  rewrite !norm_of_text, Hr, Hb, Hd. reflexivity.
Qed.

Lemma scan_paths_same_scores
  (scorer : value -> str -> str -> str -> outcome (Z * Z))
  (ride board drop ride' board' drop' : str) (paths : list value) :
  (forall p, scorer p ride board drop = scorer p ride' board' drop') ->
  forall best,
    scan_paths scorer paths ride board drop best
    = scan_paths scorer paths ride' board' drop' best.
Proof.
  intros Hsame. induction paths as [|p rest IH]; intros best; simpl.
  - reflexivity.
  - rewrite Hsame. destruct (scorer p ride' board' drop'); simpl; auto.
Qed.

(** X6: the hints reach the result through their normalized forms only,
    apart from the test that one of them is non-empty: two hint triples of
    which each is non-empty somewhere and whose normalized forms agree
    ("401번" and "401", "(Sinchon)" and "Sinchon") give every route the
    same score and select the same route. *)
Theorem selection_by_normal_forms (data : value)
  (ride board drop ride' board' drop' : str) :
  norm_text ride = norm_text ride' ->
  norm_text board = norm_text board' ->
  norm_text drop = norm_text drop' ->
  hints_present ride board drop = hints_present ride' board' drop' ->
  (forall path,
      score_path_for_ride path ride board drop
      = score_path_for_ride path ride' board' drop')
  /\ select_path_for_ride data ride board drop
     = select_path_for_ride data ride' board' drop'.
Proof.
  intros Hr Hb Hd Hp.
  assert (Hsame : forall path,
             score_path_for_ride path ride board drop
             = score_path_for_ride path ride' board' drop').
  { intros path. apply score_by_normal_forms; assumption. }
  split; [exact Hsame|].
  unfold select_path_for_ride, select_with.
  destruct (locate_paths data) as [paths| |]; simpl; auto.
  destruct (negb (truthy paths)); [reflexivity|].
  unfold hints_present in Hp. rewrite Hp.
  destruct (negb _); [reflexivity|].
  destruct (py_iter paths) as [items| |]; simpl; auto.
  rewrite (scan_paths_same_scores _ _ _ _ _ _ _ items Hsame). reflexivity.
Qed.

Lemma selection_by_normal_forms_witness :
  select_path_for_ride
    (payload [walk_route (VInt 20) "W"; route_401 (VInt 30) "A"])
    [52; 48; 49; 48264]%N [] []
  = select_path_for_ride
      (payload [walk_route (VInt 20) "W"; route_401 (VInt 30) "A"])
      (lit "(401)") [] [].
Proof.
  apply (selection_by_normal_forms
           (payload [walk_route (VInt 20) "W"; route_401 (VInt 30) "A"])
           [52; 48; 49; 48264]%N [] [] (lit "(401)") [] []); reflexivity.
Defined.

(** X7: with hints present, every route scored and a highest score above
    0, the route returned has the highest score, the smallest totalTime
    among the routes with that score, and the earliest place among those
    with that score and time: the score decides before the time does. *)
Theorem selected_route_is_optimal (data p0 : value) (rest : list value)
  (ride board drop : str) (scores : list (Z * Z)) (top : Z) :
  path_lookup data = Ok (VList (p0 :: rest)) ->
  hints_present ride board drop = true ->
  scored_by score_path_for_ride ride board drop (p0 :: rest) scores ->
  max_score scores = Some top ->
  0 < top ->
  exists i p tm,
    nth_error (p0 :: rest) i = Some p
    /\ nth_error scores i = Some (top, tm)
    /\ select_path_for_ride data ride board drop = Ok p
    /\ forall j tm',
         nth_error scores j = Some (top, tm') ->
         tm <= tm' /\ (tm' = tm -> (i <= j)%nat).
Proof.
  intros Hfound Hhints Hscored Hmax Hpos.
  destruct (select_first_best _ _ _ _ _ _ _ _ Hfound Hhints Hscored)
    as [i [s [p [Hs [Hp [Hbefore [Hafter Hsel]]]]]]].
  destruct (max_score_bound _ _ Hmax) as [Hub [best [Hbest Htop]]].
  assert (Hle : fst s <= top) by (apply Hub; eapply nth_error_In; exact Hs).
  assert (Hge : top <= fst s).
  { apply In_nth_error in Hbest. destruct Hbest as [j Hj]. rewrite <- Htop.
    destruct (Nat.lt_trichotomy j i) as [Hlt|[->|Hgt]].
    - apply beats_score. apply (Hbefore j); assumption.
    - rewrite Hs in Hj. injection Hj as ->. lia.
    - apply not_beats_score. apply (Hafter j); assumption. }
  destruct s as [sc tm]. simpl in Hle, Hge.
  assert (sc = top) by lia. subst sc.
  exists i, p, tm. split; [exact Hp|]. split; [exact Hs|]. split.
  - unfold select_path_for_ride. rewrite Hsel. simpl.
    destruct (top =? 0) eqn:Hz; [|reflexivity].
    apply Z.eqb_eq in Hz. lia.
  - intros j tm' Hj.
    destruct (Nat.lt_trichotomy j i) as [Hlt|[->|Hgt]].
    + pose proof (Hbefore j _ Hlt Hj) as Hb. unfold beats in Hb.
      simpl in Hb. lia.
    + rewrite Hs in Hj. injection Hj as ->. lia.
    + pose proof (Hafter j _ Hgt Hj) as Ha. unfold beats in Ha.
      simpl in Ha. lia.
Qed.

Lemma selected_route_is_optimal_witness :
  exists i p tm,
    nth_error [walk_route (VInt 20) "W"; route_401 (VInt 40) "A";
               route_401 (VInt 30) "B"] i = Some p
    /\ nth_error [(0, 20); (10, 40); (10, 30)] i = Some (10, tm)
    /\ select_path_for_ride
         (payload [walk_route (VInt 20) "W"; route_401 (VInt 40) "A";
                   route_401 (VInt 30) "B"]) (lit "401") [] []
       = Ok p
    /\ forall j tm',
         nth_error [(0, 20); (10, 40); (10, 30)] j = Some (10, tm') ->
         tm <= tm' /\ (tm' = tm -> (i <= j)%nat).
Proof.
  apply (selected_route_is_optimal
           (payload [walk_route (VInt 20) "W"; route_401 (VInt 40) "A";
                     route_401 (VInt 30) "B"])
           (walk_route (VInt 20) "W")
           [route_401 (VInt 40) "A"; route_401 (VInt 30) "B"]
           (lit "401") [] [] [(0, 20); (10, 40); (10, 30)] 10).
  - reflexivity.
  - reflexivity.
  - repeat (constructor; [reflexivity|]). constructor.
  - reflexivity.
  - lia.
Defined.

(** X8: whatever [get_map_obj] returns is truthy, so never an empty
    handle, and is the [mapObj] found in the [info] of the route the
    selector returned for the reply. *)
Theorem map_obj_is_never_empty (reply : outcome value)
  (ride board drop : str) (map_obj : value) :
  get_map_obj reply ride board drop = Ok map_obj ->
  truthy map_obj = true
  /\ exists data path info,
       reply = Ok data
       /\ select_path_for_ride data ride board drop = Ok path
       /\ dict_get path k_info (VDict []) = Ok (VDict info)
       /\ lookup k_mapObj info = Some map_obj.
Proof.
  unfold get_map_obj. intros H.
  bind_inv H. bind_inv H. bind_inv H. bind_inv H.
  destruct (truthy a2) eqn:Htruthy; simpl in H; [|discriminate].
  injection H as <-. split; [exact Htruthy|].
  destruct a1; try discriminate.
  exists a, a0, kvs. repeat split; try assumption.
  simpl in Hstep2. destruct (lookup k_mapObj kvs) as [v|].
  - injection Hstep2 as ->. reflexivity.
  - injection Hstep2 as <-. discriminate.
Qed.

Lemma map_obj_is_never_empty_witness : truthy (text "A") = true.
Proof.
  apply (map_obj_is_never_empty
           (Ok (payload [route_401 (VInt 30) "A"])) (lit "401") [] []
           (text "A") eq_refl).
Defined.

(** X9: the default of [path.get("info", {})] only stands in for a missing
    key: when the route returned by the selector has an [info] that is not
    a dict ([null], say), [get_map_obj] ends in AttributeError, not in its
    "mapObj missing" HTTPException. *)
Theorem info_that_is_no_dict (data path info : value)
  (ride board drop : str) :
  select_path_for_ride data ride board drop = Ok path ->
  dict_get path k_info (VDict []) = Ok info ->
  (forall kvs, info <> VDict kvs) ->
  get_map_obj (Ok data) ride board drop = Raise AttributeError.
Proof.
  intros Hsel Hinfo Hno. unfold get_map_obj. cbn [bind].
  rewrite Hsel. cbn [bind]. rewrite Hinfo. cbn [bind].
  destruct info; try reflexivity.
  exfalso. apply (Hno kvs). reflexivity.
Qed.

Lemma info_that_is_no_dict_witness :
  get_map_obj (Ok (payload [VDict [(k_info, VNone)]])) [] [] []
  = Raise AttributeError.
Proof.
  apply (info_that_is_no_dict
           (payload [VDict [(k_info, VNone)]]) (VDict [(k_info, VNone)])
           VNone [] [] [] eq_refl eq_refl).
  intros kvs. discriminate.
Defined.

(** *** The calls of the ODsay service *)

Lemma str_eqb_eq (a b : str) : str_eqb a b = true <-> a = b.
Proof.
  unfold str_eqb. destruct (list_eq_dec N.eq_dec a b).
  - split; auto.
  - split; [discriminate | contradiction].
Qed.

Lemma str_eqb_refl (a : str) : str_eqb a a = true.
Proof. apply str_eqb_eq. reflexivity. Qed.

Lemma str_eqb_neq (a b : str) : str_eqb a b = false <-> a <> b.
Proof.
  rewrite <- str_eqb_eq. destruct (str_eqb a b).
  - split; [discriminate | intros H; exfalso; apply H; reflexivity].
  - split; [intros _ H; discriminate | reflexivity].
Qed.

Lemma lookup_dict_set (k k' : str) (v : value) (kvs : list (str * value)) :
  lookup k (dict_set k' v kvs)
  = if str_eqb k k' then Some v else lookup k kvs.
Proof.
  induction kvs as [|[k0 v0] rest IH]; simpl.
  - destruct (str_eqb k k'); reflexivity.
  - destruct (str_eqb k' k0) eqn:H0; simpl.
    + apply str_eqb_eq in H0. subst k0.
      destruct (str_eqb k k'); reflexivity.
    + rewrite IH. destruct (str_eqb k k0) eqn:H1; [|reflexivity].
      apply str_eqb_eq in H1. subst k0.
      apply str_eqb_neq in H0.
      destruct (str_eqb k k') eqn:H2; [|reflexivity].
      apply str_eqb_eq in H2. subst k'. contradiction.
Qed.

Lemma lookup_in_keys (k : str) (v : value) (kvs : list (str * value)) :
  lookup k kvs = Some v -> In k (map fst kvs).
Proof.
  induction kvs as [|[k0 v0] rest IH]; simpl; [discriminate|].
  destruct (str_eqb k k0) eqn:H0.
  - apply str_eqb_eq in H0. auto.
  - auto.
Qed.

Lemma lookup_dict_update (k : str) (other : list (str * value)) :
  NoDup (map fst other) ->
  forall kvs,
    lookup k (dict_update kvs other)
    = match lookup k other with
      | Some v => Some v
      | None => lookup k kvs
      end.
Proof.
  unfold dict_update.
  induction other as [|[k1 v1] rest IH]; simpl; intros Hnd kvs.
  - reflexivity.
  - inversion Hnd as [|? ? Hnotin Hrest]; subst.
    rewrite (IH Hrest), lookup_dict_set.
    destruct (lookup k rest) as [v|] eqn:Hk.
    + destruct (str_eqb k k1) eqn:H1; [|reflexivity].
      apply str_eqb_eq in H1. subst k1.
      exfalso. apply Hnotin. apply (lookup_in_keys _ _ _ Hk).
    + destruct (str_eqb k k1); reflexivity.
Qed.

Lemma keys_dict_set (k : str) (v : value) (kvs : list (str * value)) :
  map fst (dict_set k v kvs)
  = if existsb (str_eqb k) (map fst kvs) then map fst kvs
    else map fst kvs ++ [k].
Proof.
  induction kvs as [|[k0 v0] rest IH]; simpl; [reflexivity|].
  destruct (str_eqb k k0); simpl; [reflexivity|].
  rewrite IH. destruct (existsb (str_eqb k) (map fst rest)); reflexivity.
Qed.

Lemma NoDup_dict_set (k : str) (v : value) (kvs : list (str * value)) :
  NoDup (map fst kvs) -> NoDup (map fst (dict_set k v kvs)).
Proof.
  intros Hnd. rewrite keys_dict_set.
  destruct (existsb (str_eqb k) (map fst kvs)) eqn:He; [exact Hnd|].
  apply NoDup_app; [exact Hnd | repeat constructor; intros [] |].
  intros k' Hin [Heq|[]]. subst k'.
  assert (Ht : existsb (str_eqb k) (map fst kvs) = true).
  { apply existsb_exists. exists k. split; [exact Hin|].
    apply str_eqb_refl. }
  rewrite Ht in He. discriminate.
Qed.

Lemma NoDup_dict_update (other kvs : list (str * value)) :
  NoDup (map fst kvs) -> NoDup (map fst (dict_update kvs other)).
Proof.
  unfold dict_update. revert kvs.
  induction other as [|[k1 v1] rest IH]; simpl; intros kvs Hnd.
  - exact Hnd.
  - apply IH. apply NoDup_dict_set. exact Hnd.
Qed.

(** X14: every request carries the caller's parameters as given, and
    beside them [apiKey] = the key, [lang] = 0 and [output] = "json" unless
    the caller sets these itself; no key occurs twice. *)
Theorem merged_params_lookup (key : str) (params : list (str * value))
  (k : str) :
  NoDup (map fst params) ->
  lookup k (merged_params key params)
  = match lookup k params with
    | Some v => Some v
    | None =>
        lookup k [(k_apiKey, VStr key); (k_lang, VInt 0);
                  (k_output, VStr json_text)]
    end
  /\ NoDup (map fst (merged_params key params)).
Proof.
  intros Hnd. unfold merged_params. split.
  - apply lookup_dict_update. exact Hnd.
  - apply NoDup_dict_update. simpl.
    repeat constructor; simpl; intuition discriminate.
Qed.

Lemma merged_params_lookup_witness :
  lookup k_lang (merged_params (lit "secret") [(k_lang, VInt 1)])
  = Some (VInt 1)
  /\ lookup k_apiKey (merged_params (lit "secret") [(k_lang, VInt 1)])
     = Some (VStr (lit "secret")).
Proof.
  split.
  - apply (merged_params_lookup (lit "secret") [(k_lang, VInt 1)] k_lang).
    repeat constructor. intros [].
  - apply (merged_params_lookup (lit "secret") [(k_lang, VInt 1)] k_apiKey).
    repeat constructor. intros [].
Defined.




(** X10: while the key is not set ([None] or empty), [odsay_get] raises its
    500 HTTPException and so does [get_route], whatever the service would
    answer: the check comes before any request. *)
Theorem no_key_no_request (key : option str)
  (http_get : str -> list (str * value) -> transport)
  (endpoint : str) (params : list (str * value))
  (from_lat from_lng : pyfloat) (ride board drop : str) :
  key = None \/ key = Some [] ->
  odsay_get key http_get endpoint params = Odsay_raised 500 KeyNotSet
  /\ get_route key http_get from_lat from_lng ride board drop
     = Odsay_raised 500 KeyNotSet.
Proof.
  intros [->| ->]; split; reflexivity.
Qed.

Lemma no_key_no_request_witness :
  get_route None (fun _ _ => Body (Some (payload [route_401 (VInt 30) "A"])))
    LIB_LAT LIB_LNG (lit "401") [] []
  = Odsay_raised 500 KeyNotSet.
Proof.
  apply (no_key_no_request None
           (fun _ _ => Body (Some (payload [route_401 (VInt 30) "A"])))
           [] [] LIB_LAT LIB_LNG (lit "401") [] []).
  left. reflexivity.
Defined.

(** X11: a value [odsay_get] returns is the parsed body of the response to
    the request it built, with the key set, and is never a dict with an
    ["error"] key. *)
Theorem odsay_get_returns_clean_body (key : option str)
  (http_get : str -> list (str * value) -> transport)
  (endpoint : str) (params : list (str * value)) (data : value) :
  odsay_get key http_get endpoint params = Otherwise (Ok data) ->
  (exists k,
      key = Some k /\ k <> []
      /\ http_get (request_url endpoint) (merged_params k params)
         = Body (Some data))
  /\ forall kvs, data = VDict kvs -> lookup k_error kvs = None.
Proof.
  unfold odsay_get. destruct key as [[|c k]|]; try discriminate.
  destruct (http_get (request_url endpoint) (merged_params (c :: k) params))
    as [|[body|]] eqn:Hget; try discriminate.
  intros H.
  assert (Hclean : data = body
                   /\ forall kvs, data = VDict kvs ->
                                  lookup k_error kvs = None).
  { destruct body;
      try (injection H as <-; split; [reflexivity|];
           intros kvs' Hd; discriminate).
    destruct (lookup k_error kvs) as [error|] eqn:Herr.
    - destruct (dict_get error k_msg (VStr default_msg)) as [msg| |];
        simpl in H; try discriminate.
      destruct (dict_get error k_code (VStr [])) as [code| |];
        simpl in H; discriminate.
    - injection H as <-. split; [reflexivity|].
      intros kvs' Hd. injection Hd as <-. exact Herr. }
  destruct Hclean as [-> Hno]. split; [|exact Hno].
  exists (c :: k). repeat split; [discriminate | exact Hget].
Qed.

Lemma odsay_get_returns_clean_body_witness :
  lookup k_error [(k_result, VDict [(k_path, VList [route_401 (VInt 30) "A"])])]
  = None.
Proof.
  destruct (odsay_get_returns_clean_body (Some (lit "secret"))
              (fun _ _ => Body (Some (payload [route_401 (VInt 30) "A"])))
              routing_endpoint [] (payload [route_401 (VInt 30) "A"])
              eq_refl) as [_ Hclean].
  apply Hclean. reflexivity.
Defined.

(** X12: when the body is a dict whose ["error"] is itself a dict,
    [odsay_get] raises its 502 HTTPException made from the error's [code]
    and [msg], with the empty text and "ODSAY error" standing in for a
    missing one; the rest of the body is not looked at. *)
Theorem reported_error_becomes_502 (key : str)
  (http_get : str -> list (str * value) -> transport)
  (endpoint : str) (params : list (str * value))
  (body error : list (str * value)) :
  key <> [] ->
  http_get (request_url endpoint) (merged_params key params)
  = Body (Some (VDict body)) ->
  lookup k_error body = Some (VDict error) ->
  odsay_get (Some key) http_get endpoint params
  = Odsay_raised 502
      (Reported
         (match lookup k_code error with Some code => code | None => VStr [] end)
         (match lookup k_msg error with
          | Some msg => msg
          | None => VStr default_msg
          end)).
Proof.
  intros Hkey Hget Herr. unfold odsay_get.
  destruct key as [|c k]; [contradiction|].
  rewrite Hget, Herr. reflexivity.
Qed.

Lemma reported_error_becomes_502_witness :
  odsay_get (Some (lit "secret"))
    (fun _ _ =>
       Body (Some (VDict [(k_error, VDict [(k_code, text "-8")]);
                          (k_result, VDict [])])))
    routing_endpoint []
  = Odsay_raised 502 (Reported (text "-8") (VStr default_msg)).
Proof.
  apply (reported_error_becomes_502 (lit "secret")
           (fun _ _ =>
              Body (Some (VDict [(k_error, VDict [(k_code, text "-8")]);
                                 (k_result, VDict [])])))
           routing_endpoint []
           [(k_error, VDict [(k_code, text "-8")]); (k_result, VDict [])]
           [(k_code, text "-8")]).
  - discriminate.
  - reflexivity.
  - reflexivity.
Defined.

(** X13: an ["error"] that is present but is not a dict (a list of errors,
    a text, [null]) is not turned into the 502: reading [msg] from it ends
    in AttributeError. *)
Theorem error_that_is_no_dict (key : str)
  (http_get : str -> list (str * value) -> transport)
  (endpoint : str) (params : list (str * value))
  (body : list (str * value)) (error : value) :
  key <> [] ->
  http_get (request_url endpoint) (merged_params key params)
  = Body (Some (VDict body)) ->
  lookup k_error body = Some error ->
  (forall kvs, error <> VDict kvs) ->
  odsay_get (Some key) http_get endpoint params
  = Otherwise (Raise AttributeError).
Proof.
  intros Hkey Hget Herr Hno. unfold odsay_get.
  destruct key as [|c k]; [contradiction|].
  rewrite Hget, Herr.
  destruct error as [| | | | | |inner]; try reflexivity.
  exfalso. apply (Hno inner). reflexivity.
Qed.

Lemma error_that_is_no_dict_witness :
  odsay_get (Some (lit "secret"))
    (fun _ _ =>
       Body (Some (VDict [(k_error,
                           VList [VDict [(k_code, text "500")]])])))
    routing_endpoint []
  = Otherwise (Raise AttributeError).
Proof.
  apply (error_that_is_no_dict (lit "secret")
           (fun _ _ =>
              Body (Some (VDict [(k_error,
                                  VList [VDict [(k_code, text "500")]])])))
           routing_endpoint []
           [(k_error, VList [VDict [(k_code, text "500")]])]
           (VList [VDict [(k_code, text "500")]])).
  - discriminate.
  - reflexivity.
  - reflexivity.
  - intros kvs. discriminate.
Defined.

Lemma odsay_get_same_answer (key : option str)
  (http_get http_get' : str -> list (str * value) -> transport)
  (endpoint : str) (params : list (str * value)) :
  (forall sent,
      http_get (request_url endpoint) sent
      = http_get' (request_url endpoint) sent) ->
  odsay_get key http_get endpoint params
  = odsay_get key http_get' endpoint params.
Proof.
  intros Hsame. unfold odsay_get. destruct key as [[|c k]|]; auto.
  rewrite Hsame. reflexivity.
Qed.

Lemma lane_body_is_returned (key : option str)
  (http_get : str -> list (str * value) -> transport)
  (endpoint : str) (params : list (str * value)) (data : value) :
  odsay_get key http_get endpoint params = Otherwise (Ok data) ->
  exists k,
    key = Some k
    /\ http_get (request_url endpoint) (merged_params k params)
       = Body (Some data).
Proof.
  unfold odsay_get. destruct key as [[|c k]|]; try discriminate.
  destruct (http_get (request_url endpoint) (merged_params (c :: k) params))
    as [|[body|]] eqn:Hget; try discriminate.
  intros H. exists (c :: k). split; [reflexivity|].
  destruct body as [| | | | | |kvs]; try (injection H as <-; exact Hget).
  destruct (lookup k_error kvs) as [error|].
  - destruct (dict_get error k_msg (VStr default_msg)) as [msg| |];
      simpl in H; try discriminate.
    destruct (dict_get error k_code (VStr [])) as [code| |];
      simpl in H; discriminate.
  - injection H as <-. exact Hget.
Qed.

(** X16: a value [get_route] returns is the parsed body of the lane
    response, as it is: the routing request went out with the coordinates
    and the key, [get_map_obj] found a handle in its body, and the lane
    request went out with [mapObject] = "0:0@" followed by that handle. *)
Theorem get_route_returns_lane_body (key : option str)
  (http_get : str -> list (str * value) -> transport)
  (from_lat from_lng : pyfloat) (ride board drop : str) (lanes : value) :
  get_route key http_get from_lat from_lng ride board drop
  = Otherwise (Ok lanes) ->
  exists k data map_obj handle,
    key = Some k
    /\ http_get (request_url routing_endpoint)
         (merged_params k (routing_params from_lat from_lng))
       = Body (Some data)
    /\ get_map_obj (Ok data) ride board drop = Ok map_obj
    /\ py_str map_obj = Ok handle
    /\ http_get (request_url lane_endpoint)
         (merged_params k [(k_mapObject, VStr (lane_prefix ++ handle))])
       = Body (Some lanes).
Proof.
  unfold get_route, get_map_obj_for. intros H.
  destruct (odsay_get key http_get routing_endpoint
              (routing_params from_lat from_lng))
    as [status d|reply] eqn:Hrouting; [discriminate|].
  destruct (get_map_obj reply ride board drop) as [map_obj| |] eqn:Hmap;
    try discriminate.
  unfold get_lane_graph in H.
  destruct (py_str map_obj) as [handle| |] eqn:Hstr; try discriminate.
  destruct reply as [data| |]; try discriminate.
  apply lane_body_is_returned in Hrouting.
  destruct Hrouting as [k [Hk Hsent]].
  apply lane_body_is_returned in H.
  destruct H as [k' [Hk' Hlane]].
  rewrite Hk in Hk'. injection Hk' as <-.
  exists k, data, map_obj, handle. repeat split; assumption.
Qed.

(** X17: when the routing stage yields no handle, [get_route] ends as that
    stage ends and asks the service nothing else: whatever the service
    would answer to other requests, the outcome is the same. *)
Theorem get_route_stops_without_handle (key : option str)
  (http_get http_get' : str -> list (str * value) -> transport)
  (from_lat from_lng : pyfloat) (ride board drop : str) :
  (forall sent,
      http_get (request_url routing_endpoint) sent
      = http_get' (request_url routing_endpoint) sent) ->
  (forall map_obj,
      get_map_obj_for key http_get from_lat from_lng ride board drop
      <> Otherwise (Ok map_obj)) ->
  get_route key http_get from_lat from_lng ride board drop
  = get_map_obj_for key http_get from_lat from_lng ride board drop
  /\ get_route key http_get' from_lat from_lng ride board drop
     = get_route key http_get from_lat from_lng ride board drop.
Proof.
  intros Hsame Hno.
  assert (Hstage :
    get_map_obj_for key http_get' from_lat from_lng ride board drop
    = get_map_obj_for key http_get from_lat from_lng ride board drop).
  { unfold get_map_obj_for.
    rewrite (odsay_get_same_answer key http_get http_get' _ _ Hsame).
    reflexivity. }
  unfold get_route. rewrite Hstage.
  destruct (get_map_obj_for key http_get from_lat from_lng ride board drop)
    as [status d|[map_obj|e|]] eqn:Hfor; auto.
  exfalso. apply (Hno map_obj). reflexivity.
Qed.

Lemma get_route_returns_lane_body_witness :
  exists k data map_obj handle,
    Some (lit "secret") = Some k
    /\ sample_service (request_url routing_endpoint)
         (merged_params k (routing_params LIB_LAT LIB_LNG))
       = Body (Some data)
    /\ get_map_obj (Ok data) (lit "401") [] [] = Ok map_obj
    /\ py_str map_obj = Ok handle
    /\ sample_service (request_url lane_endpoint)
         (merged_params k [(k_mapObject, VStr (lane_prefix ++ handle))])
       = Body (Some lane_body).
Proof.
  apply (get_route_returns_lane_body (Some (lit "secret")) sample_service
           LIB_LAT LIB_LNG (lit "401") [] [] lane_body).
  reflexivity.
Defined.

Lemma get_route_stops_without_handle_witness :
  get_route (Some (lit "secret")) routing_down LIB_LAT LIB_LNG
    (lit "401") [] []
  = Odsay_raised 502 HttpFailed.
Proof.
  destruct (get_route_stops_without_handle (Some (lit "secret"))
              (fun _ _ => HTTPError) routing_down
              LIB_LAT LIB_LNG (lit "401") [] []) as [_ Hsame].
  - intros sent. reflexivity.
  - intros map_obj. discriminate.
  - rewrite Hsame. reflexivity.
Defined.
